(** * Character rig pipeline: bone renaming, hierarchy clean-up, clip merge

    A shallow embedding of the three Blender batch scripts under
    [crates/common/assets/characters]:

    - [animations/scripts/convert_fbx_to_glb.py]: the bone name table
      [BONE_NAME_MAP] and the rename pass [rename_bones_to_ybot_format];
    - [scripts/clean_ybot.py]: removal of the [_rootJoint] wrapper bone and
      detaching of the armature from its parent;
    - [scripts/merge_animations.py]: import of one action per FBX source and
      creation of one NLA track per action on the base armature.

    The scripts drive Blender through [bpy].  The part of Blender's state the
    scripts read and write is an explicit record ([Bpy]); Python objects are
    referred to by identity (a number), so that a mutation through one
    reference is seen through every other.  What the process shows to the
    outside, printed lines and exported files, is collected as a trace of
    [Event]s.  The contents of the asset files on disk are a parameter
    ([World]).  Assignments to attributes are the field updates the scripts
    write; matrices (floating point) are not part of the model. *)

From stdpp Require Import base option list strings gmap fin_maps.
From Stdlib Require Import ZArith Ascii.

Local Open Scope string_scope.
Local Open Scope list_scope.

(** ** Python values and outcomes *)

Inductive PyExc : Type :=
  | KeyError (key : string)      (* [d[k]] on an absent key *)
  | SystemExit (code : Z)        (* [exit(code)] *)
  | ReferenceError                (* use of a removed Blender object *)
  | AttributeError.              (* attribute access on [None] *)

Inductive PyResult (A : Type) : Type :=
  | Returned (a : A)
  | Raised (e : PyExc).
Arguments Returned {A} a.
Arguments Raised {A} e.

Global Instance PyResult_ret : MRet PyResult := @Returned.
Global Instance PyResult_bind : MBind PyResult := fun A B f r =>
  match r with
  | Returned a => f a
  | Raised e => Raised e
  end.

(** A Python [dict] with string keys and values.  A dict display inserts its
    items from left to right, a later item replacing an earlier one with the
    same key. *)
Definition dict_literal (items : list (string * string)) : gmap string string :=
  foldl (fun d kv => <[kv.1 := kv.2]> d) ∅ items.

(** [k in d] *)
Definition dict_contains (k : string) (d : gmap string string) : bool :=
  bool_decide (is_Some (d !! k)).

(** [d[k]] *)
Definition dict_getitem (d : gmap string string) (k : string) : PyResult string :=
  match d !! k with
  | Some v => Returned v
  | None => Raised (KeyError k)
  end.

(** ** Blender data *)

Inductive ObjType : Type := ARMATURE | MESH | EMPTY | CAMERA | LIGHT.

Global Instance ObjType_eq_dec : EqDecision ObjType.
Proof. solve_decision. Defined.

Inductive Mode : Type := OBJECT | EDIT.

(** An edit bone.  [bone_id] is the identity of the Python object;
    [bone_parent] refers to the parent by identity. *)
Record EditBone : Type := mkEditBone {
  bone_id : nat;
  bone_name : string;
  bone_parent : option nat
}.

(** An action.  [frame_range] holds its first and last frame; frames are whole
    numbers, which [int(...)] leaves as they are. *)
Record Action : Type := mkAction {
  action_name : string;
  frame_range : Z * Z
}.

Record NlaStrip : Type := mkNlaStrip {
  strip_name : string;
  strip_start : Z;
  strip_action : nat            (* identity of the action *)
}.

Record NlaTrack : Type := mkNlaTrack {
  track_name : string;
  strips : list NlaStrip
}.

Record AnimData : Type := mkAnimData {
  ad_action : option nat;        (* [animation_data.action] *)
  nla_tracks : list NlaTrack     (* [animation_data.nla_tracks] *)
}.

(** A scene object together with the parts of its data block the scripts
    touch: the armature's name and edit bones, the mesh's vertex groups. *)
Record Object : Type := mkObject {
  obj_id : nat;
  obj_name : string;
  obj_type : ObjType;
  obj_parent : option nat;
  animation_data : option AnimData;
  data_name : string;
  edit_bones : list EditBone;
  vertex_groups : list string
}.

(** What an import operator adds to the scene.  Identities inside an
    [Imported] are local: an object is known by its position in
    [im_objects], an action by its position in [im_actions]. *)
Record Imported : Type := mkImported {
  im_objects : list Object;
  im_actions : list Action
}.

(** The state of the Blender process. *)
Record Bpy : Type := mkBpy {
  objects : list Object;          (* [bpy.context.scene.objects], in order *)
  data_actions : gmap nat Action; (* [bpy.data.actions], by identity *)
  next_object : nat;
  next_action : nat;
  active_object : option nat;     (* [view_layer.objects.active] *)
  selected : list nat;
  mode : Mode
}.

Global Instance Action_inhabited : Inhabited Action :=
  populate (mkAction "" (0, 0)%Z).

(** ** What the process shows to the outside *)

Inductive LogLine : Type :=
  | Line (text : string)
  | LineFrames (text : string) (range : Z * Z)   (* [... (start-end)] *)
  | LineCount (before : string) (n : nat) (after : string)
  | LineExc (text : string) (e : PyExc).          (* [... {e}] *)

(** The newline character of ["\n"]. *)
Definition nl : string := String "010"%char "".

Inductive AnimationMode : Type := ACTIONS | ACTIVE_ACTIONS | NLA_TRACKS.

Record GltfExport : Type := mkGltfExport {
  filepath : string;
  export_animation_mode : AnimationMode;
  exported_objects : list Object;
  exported_actions : gmap nat Action
}.

Inductive Event : Type :=
  | Stdout (l : LogLine)
  | ExportGltf (e : GltfExport).

(** ** Effectful code

    A computation over a state [S]: it ends by returning or by raising, leaves
    a state, and emits events on the way. *)
Definition Eff (S A : Type) : Type := S → PyResult A * S * list Event.

Definition eff_ret {S A} (a : A) : Eff S A := fun s => (Returned a, s, []).

Definition eff_bind {S A B} (k : A → Eff S B) (m : Eff S A) : Eff S B :=
  fun s =>
    match m s with
    | (Returned a, s1, out1) =>
        match k a s1 with (r, s2, out2) => (r, s2, out1 ++ out2) end
    | (Raised e, s1, out1) => (Raised e, s1, out1)
    end.

Global Instance Eff_ret {S} : MRet (Eff S) := @eff_ret S.
Global Instance Eff_bind {S} : MBind (Eff S) := @eff_bind S.

(** Running a computation from a state. *)
Definition run {S A} (m : Eff S A) (s : S) : PyResult A * S * list Event := m s.

Definition raise {S A} (e : PyExc) : Eff S A := fun s => (Raised e, s, []).
Definition get_state {S} : Eff S S := fun s => (Returned s, s, []).
Definition put_state {S} (s : S) : Eff S unit := fun _ => (Returned tt, s, []).
Definition modify {S} (f : S → S) : Eff S unit := fun s => (Returned tt, f s, []).
Definition emit {S} (e : Event) : Eff S unit := fun s => (Returned tt, s, [e]).
Definition print {S} (l : LogLine) : Eff S unit := emit (Stdout l).

(** [for x in l: body x] *)
Fixpoint for_each {S A} (l : list A) (body : A → Eff S unit) : Eff S unit :=
  match l with
  | [] => mret tt
  | x :: l' => body x ;; for_each l' body
  end.

(** [try: m except Exception as e: handler e].  [SystemExit] is not an
    [Exception] and passes through. *)
Definition is_Exception (e : PyExc) : bool :=
  match e with SystemExit _ => false | _ => true end.

Definition try_except {S A} (m : Eff S A) (handler : PyExc → Eff S A) : Eff S A :=
  fun s =>
    match m s with
    | (Raised e, s1, out1) =>
        if is_Exception e
        then match handler e s1 with (r, s2, out2) => (r, s2, out1 ++ out2) end
        else (Raised e, s1, out1)
    | r => r
    end.

(** [for x in l: acc = body acc x], for a loop that builds up a local list. *)
Fixpoint for_each_acc {S A B} (l : list A) (acc : B) (body : B → A → Eff S B) : Eff S B :=
  match l with
  | [] => mret acc
  | x :: l' => acc' ← body acc x; for_each_acc l' acc' body
  end.

(** ** Field updates *)

Definition set_bone_name (n : string) (b : EditBone) : EditBone :=
  mkEditBone (bone_id b) n (bone_parent b).
Definition set_bone_parent (p : option nat) (b : EditBone) : EditBone :=
  mkEditBone (bone_id b) (bone_name b) p.
Definition set_action_name (n : string) (a : Action) : Action :=
  mkAction n (frame_range a).

Definition set_obj_name (n : string) (o : Object) : Object :=
  mkObject (obj_id o) n (obj_type o) (obj_parent o) (animation_data o)
           (data_name o) (edit_bones o) (vertex_groups o).
Definition set_obj_parent (p : option nat) (o : Object) : Object :=
  mkObject (obj_id o) (obj_name o) (obj_type o) p (animation_data o)
           (data_name o) (edit_bones o) (vertex_groups o).
Definition set_animation_data (ad : option AnimData) (o : Object) : Object :=
  mkObject (obj_id o) (obj_name o) (obj_type o) (obj_parent o) ad
           (data_name o) (edit_bones o) (vertex_groups o).
Definition set_data_name (n : string) (o : Object) : Object :=
  mkObject (obj_id o) (obj_name o) (obj_type o) (obj_parent o) (animation_data o)
           n (edit_bones o) (vertex_groups o).
Definition set_edit_bones (bs : list EditBone) (o : Object) : Object :=
  mkObject (obj_id o) (obj_name o) (obj_type o) (obj_parent o) (animation_data o)
           (data_name o) bs (vertex_groups o).

Definition set_objects (objs : list Object) (b : Bpy) : Bpy :=
  mkBpy objs (data_actions b) (next_object b) (next_action b)
        (active_object b) (selected b) (mode b).
Definition set_actions (acts : gmap nat Action) (b : Bpy) : Bpy :=
  mkBpy (objects b) acts (next_object b) (next_action b)
        (active_object b) (selected b) (mode b).
Definition set_active_object (a : option nat) (b : Bpy) : Bpy :=
  mkBpy (objects b) (data_actions b) (next_object b) (next_action b)
        a (selected b) (mode b).
Definition set_selected (sel : list nat) (b : Bpy) : Bpy :=
  mkBpy (objects b) (data_actions b) (next_object b) (next_action b)
        (active_object b) sel (mode b).
Definition set_mode (m : Mode) (b : Bpy) : Bpy :=
  mkBpy (objects b) (data_actions b) (next_object b) (next_action b)
        (active_object b) (selected b) m.

(** ** Objects by identity *)

Definition is_object (id : nat) (o : Object) : bool := bool_decide (obj_id o = id).

Definition lookup_object (id : nat) (objs : list Object) : option Object :=
  find (is_object id) objs.

(** The object that [lookup_object] finds, changed by [f]. *)
Fixpoint update_object (id : nat) (f : Object → Object) (objs : list Object) : list Object :=
  match objs with
  | [] => []
  | o :: rest => if is_object id o then f o :: rest else o :: update_object id f rest
  end.

(** Run code that works on one object, reached through a reference.  A
    reference to an object that was removed raises. *)
Definition on_object {A} (id : nat) (m : Eff Object A) : Eff Bpy A :=
  fun b =>
    match lookup_object id (objects b) with
    | Some o =>
        match m o with
        | (r, o', out) => (r, set_objects (update_object id (fun _ => o') (objects b)) b, out)
        end
    | None => (Raised ReferenceError, b, [])
    end.

(** [obj.animation_data and obj.animation_data.action] *)
Definition active_action (o : Object) : option nat :=
  ad ← animation_data o; ad_action ad.

(** The first object of the scene that satisfies [p]:
    [for obj in bpy.context.scene.objects: if p(obj): ...; break] *)
Definition first_object (p : Object → bool) : Eff Bpy (option Object) :=
  b ← get_state; mret (find p (objects b)).

Definition is_type (t : ObjType) (o : Object) : bool := bool_decide (obj_type o = t).

(** ** Blender operators *)

(** The state of a process that has just started on an empty file. *)
Definition empty_file : Bpy := mkBpy [] ∅ 0 0 None [] OBJECT.

(** [bpy.ops.wm.read_factory_settings(use_empty=True)] *)
Definition read_factory_settings : Eff Bpy unit := put_state empty_file.

Definition relocate_strip (a0 : nat) (s : NlaStrip) : NlaStrip :=
  mkNlaStrip (strip_name s) (strip_start s) (a0 + strip_action s).
Definition relocate_track (a0 : nat) (t : NlaTrack) : NlaTrack :=
  mkNlaTrack (track_name t) (map (relocate_strip a0) (strips t)).
Definition relocate_anim (a0 : nat) (ad : AnimData) : AnimData :=
  mkAnimData (Nat.add a0 <$> ad_action ad) (map (relocate_track a0) (nla_tracks ad)).
Definition relocate_object (o0 a0 : nat) (i : nat) (o : Object) : Object :=
  mkObject (o0 + i) (obj_name o) (obj_type o) (Nat.add o0 <$> obj_parent o)
           (relocate_anim a0 <$> animation_data o)
           (data_name o) (edit_bones o) (vertex_groups o).

(** An import appends its objects to the scene and its actions to the
    actions of the file, under fresh identities. *)
Definition add_imported (im : Imported) (b : Bpy) : Bpy :=
  mkBpy (objects b ++ imap (relocate_object (next_object b) (next_action b)) (im_objects im))
        (data_actions b ∪ map_seq (next_action b) (im_actions im))
        (next_object b + length (im_objects im))
        (next_action b + length (im_actions im))
        (active_object b) (selected b) (mode b).

(** [bpy.data.objects.remove(obj, do_unlink=True)]: the object leaves the
    scene and every use of it is cleared.  Its action stays in
    [bpy.data.actions]. *)
Definition unlink_parent (id : nat) (o : Object) : Object :=
  if bool_decide (obj_parent o = Some id) then set_obj_parent None o else o.

Definition objects_remove (id : nat) : Eff Bpy unit :=
  modify (fun b =>
    mkBpy (map (unlink_parent id) (filter (fun o => obj_id o ≠ id) (objects b)))
          (data_actions b) (next_object b) (next_action b)
          (if bool_decide (active_object b = Some id) then None else active_object b)
          (filter (fun i => i ≠ id) (selected b))
          (mode b)).

(** [bpy.ops.object.select_all(action='SELECT')] *)
Definition select_all : Eff Bpy unit :=
  modify (fun b => set_selected (map obj_id (objects b)) b).

(** [bpy.context.view_layer.objects.active = obj] *)
Definition set_active (id : nat) : Eff Bpy unit :=
  modify (set_active_object (Some id)).

(** [bpy.ops.object.mode_set(mode=m)] *)
Definition mode_set (m : Mode) : Eff Bpy unit := modify (set_mode m).

(** [bpy.ops.export_scene.gltf(filepath=p, export_animation_mode=m, ...)]
    writes the whole scene. *)
Definition export_scene_gltf (p : string) (m : AnimationMode) : Eff Bpy unit :=
  b ← get_state; emit (ExportGltf (mkGltfExport p m (objects b) (data_actions b))).

(** ** The files the scripts read *)

Record World : Type := mkWorld {
  path_join : string → string → string;   (* [os.path.join] *)
  path_exists : string → bool;            (* [os.path.exists] *)
  gltf_file : string → Imported;          (* what [import_scene.gltf] adds *)
  fbx_file : string → Imported;           (* what [import_scene.fbx] adds *)
  characters_dir : string
}.

Definition animations_dir (w : World) : string :=
  path_join w (path_join w (characters_dir w) "animations") "scripts".

Definition import_scene_gltf (w : World) (p : string) : Eff Bpy unit :=
  modify (add_imported (gltf_file w p)).
Definition import_scene_fbx (w : World) (p : string) : Eff Bpy unit :=
  modify (add_imported (fbx_file w p)).

(** ** convert_fbx_to_glb.py *)

Module convert_fbx_to_glb.

(** Bone name mapping from Mixamo standard to Y-Bot format. *)
Definition BONE_NAME_MAP : gmap string string := dict_literal [
  ("mixamorig:Hips", "mixamorig:Hips_01");
  ("mixamorig:Spine", "mixamorig:Spine_02");
  ("mixamorig:Spine1", "mixamorig:Spine1_03");
  ("mixamorig:Spine2", "mixamorig:Spine2_04");
  ("mixamorig:Neck", "mixamorig:Neck_05");
  ("mixamorig:Head", "mixamorig:Head_06");
  ("mixamorig:HeadTop_End", "mixamorig:HeadTop_End_07");
  ("mixamorig:LeftShoulder", "mixamorig:LeftShoulder_08");
  ("mixamorig:LeftArm", "mixamorig:LeftArm_09");
  ("mixamorig:LeftForeArm", "mixamorig:LeftForeArm_010");
  ("mixamorig:LeftHand", "mixamorig:LeftHand_011");
  ("mixamorig:LeftHandThumb1", "mixamorig:LeftHandThumb1_012");
  ("mixamorig:LeftHandThumb2", "mixamorig:LeftHandThumb2_013");
  ("mixamorig:LeftHandThumb3", "mixamorig:LeftHandThumb3_014");
  ("mixamorig:LeftHandThumb4", "mixamorig:LeftHandThumb4_015");
  ("mixamorig:LeftHandIndex1", "mixamorig:LeftHandIndex1_016");
  ("mixamorig:LeftHandIndex2", "mixamorig:LeftHandIndex2_017");
  ("mixamorig:LeftHandIndex3", "mixamorig:LeftHandIndex3_018");
  ("mixamorig:LeftHandIndex4", "mixamorig:LeftHandIndex4_019");
  ("mixamorig:LeftHandMiddle1", "mixamorig:LeftHandMiddle1_020");
  ("mixamorig:LeftHandMiddle2", "mixamorig:LeftHandMiddle2_021");
  ("mixamorig:LeftHandMiddle3", "mixamorig:LeftHandMiddle3_022");
  ("mixamorig:LeftHandMiddle4", "mixamorig:LeftHandMiddle4_023");
  ("mixamorig:LeftHandRing1", "mixamorig:LeftHandRing1_024");
  ("mixamorig:LeftHandRing2", "mixamorig:LeftHandRing2_025");
  ("mixamorig:LeftHandRing3", "mixamorig:LeftHandRing3_026");
  ("mixamorig:LeftHandRing4", "mixamorig:LeftHandRing4_027");
  ("mixamorig:LeftHandPinky1", "mixamorig:LeftHandPinky1_028");
  ("mixamorig:LeftHandPinky2", "mixamorig:LeftHandPinky2_029");
  ("mixamorig:LeftHandPinky3", "mixamorig:LeftHandPinky3_030");
  ("mixamorig:LeftHandPinky4", "mixamorig:LeftHandPinky4_031");
  ("mixamorig:RightShoulder", "mixamorig:RightShoulder_032");
  ("mixamorig:RightArm", "mixamorig:RightArm_033");
  ("mixamorig:RightForeArm", "mixamorig:RightForeArm_034");
  ("mixamorig:RightHand", "mixamorig:RightHand_035");
  ("mixamorig:RightHandThumb1", "mixamorig:RightHandThumb1_036");
  ("mixamorig:RightHandThumb2", "mixamorig:RightHandThumb2_037");
  ("mixamorig:RightHandThumb3", "mixamorig:RightHandThumb3_038");
  ("mixamorig:RightHandThumb4", "mixamorig:RightHandThumb4_039");
  ("mixamorig:RightHandIndex1", "mixamorig:RightHandIndex1_040");
  ("mixamorig:RightHandIndex2", "mixamorig:RightHandIndex2_041");
  ("mixamorig:RightHandIndex3", "mixamorig:RightHandIndex3_042");
  ("mixamorig:RightHandIndex4", "mixamorig:RightHandIndex4_043");
  ("mixamorig:RightHandMiddle1", "mixamorig:RightHandMiddle1_044");
  ("mixamorig:RightHandMiddle2", "mixamorig:RightHandMiddle2_045");
  ("mixamorig:RightHandMiddle3", "mixamorig:RightHandMiddle3_046");
  ("mixamorig:RightHandMiddle4", "mixamorig:RightHandMiddle4_047");
  ("mixamorig:RightHandRing1", "mixamorig:RightHandRing1_048");
  ("mixamorig:RightHandRing2", "mixamorig:RightHandRing2_049");
  ("mixamorig:RightHandRing3", "mixamorig:RightHandRing3_050");
  ("mixamorig:RightHandRing4", "mixamorig:RightHandRing4_051");
  ("mixamorig:RightHandPinky1", "mixamorig:RightHandPinky1_052");
  ("mixamorig:RightHandPinky2", "mixamorig:RightHandPinky2_053");
  ("mixamorig:RightHandPinky3", "mixamorig:RightHandPinky3_054");
  ("mixamorig:RightHandPinky4", "mixamorig:RightHandPinky4_055");
  ("mixamorig:LeftUpLeg", "mixamorig:LeftUpLeg_056");
  ("mixamorig:LeftLeg", "mixamorig:LeftLeg_057");
  ("mixamorig:LeftFoot", "mixamorig:LeftFoot_058");
  ("mixamorig:LeftToeBase", "mixamorig:LeftToeBase_059");
  ("mixamorig:LeftToe_End", "mixamorig:LeftToe_End_060");
  ("mixamorig:RightUpLeg", "mixamorig:RightUpLeg_061");
  ("mixamorig:RightLeg", "mixamorig:RightLeg_062");
  ("mixamorig:RightFoot", "mixamorig:RightFoot_063");
  ("mixamorig:RightToeBase", "mixamorig:RightToeBase_064");
  ("mixamorig:RightToe_End", "mixamorig:RightToe_End_065")].

(** The body of the loop over the edit bones, on one bone:
    [if bone.name in BONE_NAME_MAP: new_name = BONE_NAME_MAP[bone.name];
     bone.name = new_name; renamed_count += 1]. *)
Definition rename_bone (bone : EditBone) (renamed_count : nat) : PyResult (EditBone * nat) :=
  if dict_contains (bone_name bone) BONE_NAME_MAP then
    match dict_getitem BONE_NAME_MAP (bone_name bone) with
    | Returned new_name => Returned (set_bone_name new_name bone, S renamed_count)
    | Raised e => Raised e
    end
  else Returned (bone, renamed_count).

(** [for bone in armature.data.edit_bones: ...]: the outcome (the count, when
    the loop runs to its end) and the bones as the loop leaves them. *)
Fixpoint rename_loop (bones : list EditBone) (renamed_count : nat)
  : PyResult nat * list EditBone :=
  match bones with
  | [] => (Returned renamed_count, [])
  | bone :: rest =>
      match rename_bone bone renamed_count with
      | Returned (bone', renamed_count') =>
          match rename_loop rest renamed_count' with
          | (r, rest') => (r, bone' :: rest')
          end
      | Raised e => (Raised e, bone :: rest)
      end
  end.

(** The name correspondence as a function on names: the name a bone called
    [name] carries after the loop body. *)
Definition translate (name : string) : PyResult string :=
  match rename_bone (mkEditBone 0 name None) 0 with
  | Returned (bone', _) => Returned (bone_name bone')
  | Raised e => Raised e
  end.

Definition rename_bones_to_ybot_format (armature : option Object) : Eff Bpy unit :=
  match armature with
  | None => mret tt
  | Some arm =>
      if negb (is_type ARMATURE arm) then mret tt
      else
        set_active (obj_id arm) ;;
        mode_set EDIT ;;
        renamed_count ← on_object (obj_id arm) (fun o =>
          match rename_loop (edit_bones o) 0 with
          | (r, bones) => (r, set_edit_bones bones o, [])
          end) ;
        mode_set OBJECT ;;
        print (LineCount "  Renamed " renamed_count " bones to Y-Bot format")
  end.

(** [action.name = n] on the action with identity [a]. *)
Definition rename_action (a : nat) (n : string) : Eff Bpy unit :=
  modify (fun b => set_actions (alter (set_action_name n) a (data_actions b)) b).

Definition convert_fbx_to_glb (w : World) (fbx_path glb_path : string) : Eff Bpy unit :=
  read_factory_settings ;;
  print (Line ("Importing: " +:+ fbx_path)) ;;
  import_scene_fbx w fbx_path ;;
  armature ← first_object (is_type ARMATURE) ;
  b ← get_state ;
  match armature ≫= active_action with
  | Some action =>
      print (LineFrames ("  Found animation: " +:+ action_name (data_actions b !!! action))
                        (frame_range (data_actions b !!! action)))
  | None => print (Line "  WARNING: No animation found in FBX!")
  end ;;
  rename_bones_to_ybot_format armature ;;
  match armature ≫= active_action with
  | Some action =>
      rename_action action "Animation" ;;
      print (Line "  Renamed action to: Animation")
  | None => mret tt
  end ;;
  select_all ;;
  match armature with
  | Some arm => set_active (obj_id arm)
  | None => mret tt
  end ;;
  print (Line ("Exporting: " +:+ glb_path)) ;;
  export_scene_gltf glb_path ACTIVE_ACTIONS ;;
  print (Line ("Done: " +:+ glb_path +:+ nl)).

Definition fbx_files : list (string * string) := [
  ("Female Idle.fbx", "female_idle.glb");
  ("Female Jump.fbx", "female_jump.glb");
  ("Female Running.fbx", "female_running.glb");
  ("Female Walking.fbx", "female_walking.glb");
  ("Male Idle.fbx", "male_idle.glb");
  ("Male Jump.fbx", "male_jump.glb");
  ("Male Running.fbx", "male_running.glb");
  ("Male Walking.fbx", "male_walking.glb");
  ("Sprint.fbx", "sprint.glb")
].

(** The script: every file of [fbx_files] that exists is converted; an
    exception of one conversion is printed and the loop goes on. *)
Definition main (w : World) : Eff Bpy unit :=
  let script_dir := animations_dir w in
  for_each fbx_files (fun '(fbx_name, glb_name) =>
    let fbx_path := path_join w script_dir fbx_name in
    let glb_path := path_join w script_dir glb_name in
    if path_exists w fbx_path then
      try_except (convert_fbx_to_glb w fbx_path glb_path)
        (fun e => print (LineExc ("Error converting " +:+ fbx_name +:+ ": ") e))
    else print (Line ("Skipping (not found): " +:+ fbx_name))) ;;
  print (Line "All conversions complete!").

End convert_fbx_to_glb.

(** ** clean_ybot.py *)

Module clean_ybot.

(** [armature.data.edit_bones.get(name)] *)
Definition edit_bones_get (name : string) (bones : list EditBone) : option EditBone :=
  find (fun b => bool_decide (bone_name b = name)) bones.

(** [bone.parent = p] on the bone with identity [id]. *)
Definition update_bone (id : nat) (f : EditBone → EditBone) (o : Object) : Object :=
  set_edit_bones
    (map (fun b => if bool_decide (bone_id b = id) then f b else b) (edit_bones o)) o.

(** [armature.data.edit_bones.remove(bone)] *)
Definition edit_bones_remove (id : nat) (o : Object) : Object :=
  set_edit_bones (filter (fun b => bone_id b ≠ id) (edit_bones o)) o.

(** Remove _rootJoint bone and reparent its children to root. *)
Definition remove_root_joint : Eff Object unit :=
  armature ← get_state ;
  match edit_bones_get "_rootJoint" (edit_bones armature) with
  | Some root_joint =>
      let children :=
        filter (fun b => bone_parent b = Some (bone_id root_joint)) (edit_bones armature) in
      for_each children (fun child =>
        modify (update_bone (bone_id child) (set_bone_parent None)) ;;
        print (Line ("  Reparented " +:+ bone_name child +:+ " to root"))) ;;
      modify (edit_bones_remove (bone_id root_joint)) ;;
      print (Line "Removed _rootJoint bone")
  | None => mret tt
  end.

(** Unparent armature from any parent hierarchy. *)
Definition unparent : Eff Object unit :=
  armature ← get_state ;
  match obj_parent armature with
  | Some _ =>
      modify (set_obj_parent None) ;;
      print (Line "Unparented armature from hierarchy")
  | None => mret tt
  end.

(** Rename armature to "Armature" to match animation files. *)
Definition rename_armature : Eff Object unit :=
  modify (set_obj_name "Armature") ;;
  modify (set_data_name "Armature") ;;
  armature ← get_state ;
  print (Line ("Renamed armature to: " +:+ obj_name armature)).

(** What the script does to the armature object, from its renaming to its
    detaching. *)
Definition normalize_armature : Eff Object unit :=
  rename_armature ;; remove_root_joint ;; unparent.

(** The end of the script: every object other than the armature and the
    meshes is deleted, and the scene is exported. *)
Definition delete_others_and_export (armature : nat) (output_path : string) : Eff Bpy unit :=
  b ← get_state ;
  let meshes := filter (fun obj => obj_type obj = MESH) (objects b) in
  print (LineCount "Found " (length meshes) " mesh objects") ;;
  let to_delete :=
    filter (fun obj => obj_id obj ≠ armature ∧ obj_id obj ∉ map obj_id meshes)
           (objects b) in
  for_each to_delete (fun obj => objects_remove (obj_id obj)) ;;
  print (LineCount "Deleted " (length to_delete) " unnecessary objects") ;;
  select_all ;;
  set_active armature ;;
  select_all ;;
  set_active armature ;;
  print (Line ("Exporting to: " +:+ output_path)) ;;
  export_scene_gltf output_path ACTIONS ;;
  print (Line "Done!") ;;
  print (Line (nl +:+ "Now update skinned_character.rs to use 'y_bot_clean.glb' instead of 'y_bot.glb'")).

Definition main (w : World) : Eff Bpy unit :=
  let input_path := path_join w (characters_dir w) "y_bot.glb" in
  let output_path := path_join w (characters_dir w) "y_bot_clean.glb" in
  print (Line ("Input: " +:+ input_path)) ;;
  print (Line ("Output: " +:+ output_path)) ;;
  read_factory_settings ;;
  print (Line "Importing Y-Bot...") ;;
  import_scene_gltf w input_path ;;
  armature ← first_object (is_type ARMATURE) ;
  match armature with
  | None =>
      print (Line "ERROR: No armature found!") ;;
      raise (SystemExit 1)
  | Some arm =>
      let armature := obj_id arm in
      print (Line ("Found armature: " +:+ obj_name arm)) ;;
      on_object armature rename_armature ;;
      set_active armature ;;
      mode_set EDIT ;;
      on_object armature remove_root_joint ;;
      mode_set OBJECT ;;
      on_object armature unparent ;;
      delete_others_and_export armature output_path
  end.

End clean_ybot.

(** ** merge_animations.py *)

Module merge_animations.

(** Animation files to merge (FBX name, action name for Bevy). *)
Definition ANIMATIONS : list (string * string) := [
  ("Female Idle.fbx", "Idle");
  ("Female Walking.fbx", "Walk");
  ("Female Running.fbx", "Run");
  ("Sprint.fbx", "Sprint");
  ("Female Jump.fbx", "Jump")
].

(** One turn of [for fbx_name, action_name in animation_files]; [actions] is
    the list built so far. *)
Definition import_animation (w : World) (armature : nat)
    (actions : list nat) (item : string * string) : Eff Bpy (list nat) :=
  let '(fbx_name, action_name) := item in
  let fbx_path := path_join w (animations_dir w) fbx_name in
  if negb (path_exists w fbx_path) then
    print (Line ("  Skipping (not found): " +:+ fbx_name)) ;;
    mret actions
  else
    print (Line ("Importing animation: " +:+ fbx_name)) ;;
    import_scene_fbx w fbx_path ;;
    (* Find the imported armature and its action *)
    found ← first_object (fun obj => is_type ARMATURE obj && negb (is_object armature obj)) ;
    match found with
    | Some obj =>
        actions' ← match active_action obj with
                    | Some action =>
                        convert_fbx_to_glb.rename_action action action_name ;;
                        b ← get_state ;
                        print (LineFrames ("  Found action: " +:+ action_name)
                                          (frame_range (data_actions b !!! action))) ;;
                        mret (actions ++ [action])
                    | None => mret actions
                    end ;
        (* Delete the imported armature (we only want the action) *)
        objects_remove (obj_id obj) ;;
        mret actions'
    | None => mret actions
    end.

(** [armature.animation_data.nla_tracks.new()], then the track gets its name
    and one strip. *)
Definition new_nla_track (name : string) (start : Z) (action : nat) : Eff Object unit :=
  armature ← get_state ;
  match animation_data armature with
  | Some ad =>
      let strip := mkNlaStrip name start action in
      let track := mkNlaTrack name [strip] in
      put_state (set_animation_data
                   (Some (mkAnimData (ad_action ad) (nla_tracks ad ++ [track]))) armature)
  | None => raise AttributeError
  end.

(** [armature.animation_data.action = a] *)
Definition set_action (a : nat) : Eff Object unit :=
  armature ← get_state ;
  match animation_data armature with
  | Some ad =>
      put_state (set_animation_data (Some (mkAnimData (Some a) (nla_tracks ad))) armature)
  | None => raise AttributeError
  end.

(** [if not armature.animation_data: armature.animation_data_create()] *)
Definition ensure_animation_data : Eff Object unit :=
  armature ← get_state ;
  match animation_data armature with
  | Some _ => mret tt
  | None => put_state (set_animation_data (Some (mkAnimData None [])) armature)
  end.

(** The clip merger: the actions are pushed to NLA tracks of the armature,
    one track each, and the first one becomes the active action.  [acts] is
    [bpy.data.actions], which this part only reads. *)
Definition push_actions (acts : gmap nat Action) (actions : list nat) : Eff Object unit :=
  ensure_animation_data ;;
  for_each actions (fun action =>
    let name := action_name (acts !!! action) in
    new_nla_track name (frame_range (acts !!! action)).1 action ;;
    print (Line ("Added NLA track: " +:+ name))) ;;
  match actions with
  | first :: _ => set_action first
  | [] => mret tt
  end.

(** The end of [merge_animations_into_model], from the tracks to the export. *)
Definition export_with_actions (armature : nat) (output_glb_path : string)
    (actions : list nat) : Eff Bpy unit :=
  b ← get_state ;
  on_object armature (push_actions (data_actions b) actions) ;;
  (* Select all objects for export *)
  select_all ;;
  set_active armature ;;
  print (Line ("Exporting: " +:+ output_glb_path)) ;;
  export_scene_gltf output_glb_path NLA_TRACKS ;;
  print (LineCount "Done! Exported " (length actions) " animations").

Definition merge_animations_into_model (w : World)
    (model_glb_path output_glb_path : string)
    (animation_files : list (string * string)) : Eff Bpy unit :=
  read_factory_settings ;;
  print (Line ("Importing model: " +:+ model_glb_path)) ;;
  import_scene_gltf w model_glb_path ;;
  armature ← first_object (is_type ARMATURE) ;
  match armature with
  | None => print (Line "ERROR: No armature found in model!")
  | Some arm =>
      let armature := obj_id arm in
      print (Line ("Found armature: " +:+ obj_name arm)) ;;
      actions ← for_each_acc animation_files [] (import_animation w armature) ;
      export_with_actions armature output_glb_path actions
  end.

(** The script: one job, the Y-Bot. *)
Definition main (w : World) : Eff Bpy unit :=
  let ybot_input := path_join w (characters_dir w) "y_bot.glb" in
  let ybot_output := path_join w (characters_dir w) "y_bot_animated.glb" in
  merge_animations_into_model w ybot_input ybot_output ANIMATIONS ;;
  print (Line (nl +:+ "Merge complete!")) ;;
  print (Line ("Output: " +:+ ybot_output)) ;;
  print (Line "Update skinned_character.rs to use 'y_bot_animated.glb' instead of 'y_bot.glb'").

End merge_animations.

(** ** Sample assets *)

Module Samples.

Definition join (dir name : string) : string := dir +:+ "/" +:+ name.

(** A skeleton in the shape of the Y-Bot file: the wrapper bone on top. *)
Definition ybot_bones : list EditBone := [
  mkEditBone 0 "_rootJoint" None;
  mkEditBone 1 "mixamorig:Hips_01" (Some 0);
  mkEditBone 2 "mixamorig:Spine_02" (Some 1);
  mkEditBone 3 "mixamorig:LeftUpLeg_056" (Some 1)
].

(** A wrapper bone with two children. *)
Definition two_children_bones : list EditBone := [
  mkEditBone 0 "_rootJoint" None;
  mkEditBone 1 "mixamorig:Hips_01" (Some 0);
  mkEditBone 2 "Prop" (Some 0)
].

(** A skeleton in the naming of the motion sources. *)
Definition mixamo_bones : list EditBone := [
  mkEditBone 0 "mixamorig:Hips" None;
  mkEditBone 1 "mixamorig:Spine" (Some 0);
  mkEditBone 2 "mixamorig:LeftUpLeg" (Some 0)
].


Definition armature_object (name : string) (parent : option nat)
    (ad : option AnimData) (bones : list EditBone) : Object :=
  mkObject 0 name ARMATURE parent ad name bones [].

Definition mesh_object (name : string) (parent : option nat) (groups : list string) : Object :=
  mkObject 0 name MESH parent None name [] groups.

Definition empty_object (name : string) : Object :=
  mkObject 0 name EMPTY None None "" [] [].

(** The base model: a container node, the armature under it, a skinned mesh,
    and a camera. *)
Definition ybot_glb : Imported :=
  mkImported
    [ empty_object "Scene_Root";
      armature_object "Armature.001" (Some 0) None ybot_bones;
      mesh_object "Alpha_Surface" (Some 1) ["mixamorig:Hips_01"; "mixamorig:Spine_02"];
      mkObject 0 "Camera" CAMERA None None "Camera" [] [] ]
    [].

(** A base model without a skeleton. *)
Definition static_glb : Imported :=
  mkImported [ mesh_object "Cube" None [] ] [].

(** A motion source without skin: one armature carrying one action. *)
Definition motion_fbx (frames : Z) : Imported :=
  mkImported
    [ armature_object "Armature" None (Some (mkAnimData (Some 0) [])) mixamo_bones ]
    [ mkAction "Armature|mixamo.com|Layer0" (1, frames)%Z ].

(** A motion source with skin: the armature and the mesh bound to it. *)
Definition skinned_fbx (frames : Z) : Imported :=
  mkImported
    [ armature_object "Armature" None (Some (mkAnimData (Some 0) [])) mixamo_bones;
      mesh_object "Beta_Surface" (Some 0) ["mixamorig:Hips"; "mixamorig:Spine"] ]
    [ mkAction "Armature|mixamo.com|Layer0" (1, frames)%Z ].

Definition sample_world (present : list string) (base : Imported)
    (source : string → Imported) : World :=
  mkWorld join (fun p => bool_decide (p ∈ present)) (fun _ => base) source "characters".

Definition src (name : string) : string := "characters/animations/scripts/" +:+ name.

Definition clip_list : list (string * string) :=
  [("a.src", "Idle"); ("b.src", "Walk"); ("c.src", "Run")].

(** All three sources are there. *)
Definition world_abc : World :=
  sample_world [src "a.src"; src "b.src"; src "c.src"] ybot_glb (fun _ => motion_fbx 30).

(** ["b.src"] is missing. *)
Definition world_ac : World :=
  sample_world [src "a.src"; src "c.src"] ybot_glb (fun _ => motion_fbx 30).

(** The base model has no armature. *)
Definition world_static : World :=
  sample_world [src "a.src"; src "b.src"; src "c.src"] static_glb (fun _ => motion_fbx 30).

(** The wrapper bone of the base model has two children. *)
Definition world_two_roots : World :=
  sample_world []
    (mkImported [ armature_object "Armature" None None two_children_bones;
                  mesh_object "Alpha_Surface" (Some 0) ["mixamorig:Hips_01"; "Prop"] ] [])
    (fun _ => motion_fbx 30).

(** The sources were saved with skin. *)
Definition world_skinned : World :=
  sample_world [src "a.src"; src "b.src"; src "c.src"] ybot_glb (fun _ => skinned_fbx 30).


End Samples.

(** ** Reading a run *)

Definition outcome {S A} (r : PyResult A * S * list Event) : PyResult A := r.1.1.
Definition final_state {S A} (r : PyResult A * S * list Event) : S := r.1.2.
Definition trace {S A} (r : PyResult A * S * list Event) : list Event := r.2.

(** The files a run has written, and the lines it has printed. *)
Definition exports (out : list Event) : list GltfExport :=
  omap (fun e => match e with ExportGltf x => Some x | _ => None end) out.
Definition printed (out : list Event) : list LogLine :=
  omap (fun e => match e with Stdout l => Some l | _ => None end) out.

(** The bones of an armature that have no parent. *)
Definition root_bones (o : Object) : list EditBone :=
  filter (fun b => bone_parent b = None) (edit_bones o).

(** The bones that the clean-up leaves without a parent: those that had none,
    the wrapper bone apart, and the children of the wrapper bone. *)
Definition lands_on_top (bones : list EditBone) (b : EditBone) : bool :=
  match clean_ybot.edit_bones_get "_rootJoint" bones with
  | Some root_joint =>
      negb (bool_decide (bone_id b = bone_id root_joint)) &&
      (bool_decide (bone_parent b = None) ||
       bool_decide (bone_parent b = Some (bone_id root_joint)))
  | None => bool_decide (bone_parent b = None)
  end.

(** A bone after the loop that reparents [children]: it has lost its parent
    if it is one of them. *)
Definition reparented (children : list EditBone) (b : EditBone) : EditBone :=
  if bool_decide (bone_id b ∈ map bone_id children) then set_bone_parent None b else b.

(** The track the clip merger makes for an action: it is named after the
    action and holds one strip of it. *)
Definition track_of (acts : gmap nat Action) (action : nat) : NlaTrack :=
  mkNlaTrack (action_name (acts !!! action))
    [mkNlaStrip (action_name (acts !!! action)) (frame_range (acts !!! action)).1 action].

(** The NLA tracks of an object, by name, and its active action, by name. *)
Definition track_names (o : Object) : list string :=
  match animation_data o with
  | Some ad => map track_name (nla_tracks ad)
  | None => []
  end.
Definition active_clip (acts : gmap nat Action) (o : Object) : option string :=
  a ← active_action o; Some (action_name (acts !!! a)).



(** * Properties *)

(** ** The monad of effects *)

Section eff_laws.
Context {S A B : Type}.

Lemma bind_run (m : Eff S A) (k : A → Eff S B) (s : S) :
  run (m ≫= k) s =
  match run m s with
  | (Returned a, s1, out1) =>
      match run (k a) s1 with (r, s2, out2) => (r, s2, out1 ++ out2) end
  | (Raised e, s1, out1) => (Raised e, s1, out1)
  end.
Proof. reflexivity. Qed.

Lemma bind_returned (m : Eff S A) (k : A → Eff S B) s a s1 out1 :
  run m s = (Returned a, s1, out1) →
  run (m ≫= k) s =
  (outcome (run (k a) s1), final_state (run (k a) s1), out1 ++ trace (run (k a) s1)).
Proof.
  intros Hm. rewrite bind_run, Hm. by destruct (run (k a) s1) as [[r s2] out2].
Qed.

Lemma bind_raised (m : Eff S A) (k : A → Eff S B) s e s1 out1 :
  run m s = (Raised e, s1, out1) → run (m ≫= k) s = (Raised e, s1, out1).
Proof. intros Hm. by rewrite bind_run, Hm. Qed.

(** Two computations that return, one after the other. *)
Lemma bind_returns (m : Eff S A) (k : A → Eff S B) s a s1 out1 b s2 out2 :
  run m s = (Returned a, s1, out1) →
  run (k a) s1 = (Returned b, s2, out2) →
  run (m ≫= k) s = (Returned b, s2, out1 ++ out2).
Proof.
  intros Hm Hk. by rewrite bind_run, Hm, Hk.
Qed.
End eff_laws.

Lemma run_print {S} (l : LogLine) (s : S) :
  run (print l) s = (Returned tt, s, [Stdout l]).
Proof. reflexivity. Qed.

Lemma run_modify {S} (f : S → S) (s : S) : run (modify f) s = (Returned tt, f s, []).
Proof. reflexivity. Qed.

Lemma run_get_state {S} (s : S) : run get_state s = (Returned s, s, []).
Proof. reflexivity. Qed.

Lemma run_put_state {S} (s s' : S) : run (put_state s') s = (Returned tt, s', []).
Proof. reflexivity. Qed.

Lemma run_emit {S} (e : Event) (s : S) : run (emit e) s = (Returned tt, s, [e]).
Proof. reflexivity. Qed.

Lemma run_mret {S A} (a : A) (s : S) : run (mret a) s = (Returned a, s, []).
Proof. reflexivity. Qed.

Lemma run_raise {S A} (e : PyExc) (s : S) : run (raise e) s = (@Raised A e, s, []).
Proof. reflexivity. Qed.

(** One step of a sequence of primitive computations. *)
Ltac eff_step :=
  rewrite bind_run;
  rewrite ?run_print, ?run_modify, ?run_get_state, ?run_put_state, ?run_mret, ?run_raise,
          ?run_emit;
  cbv beta iota.


(** Unfolds the primitive computations. *)
Ltac eff_unfold :=
  unfold run, mret, mbind, Eff_ret, Eff_bind, eff_ret, eff_bind,
         modify, print, emit, get_state, put_state, raise in *.

(** ** Lists *)

(** [map] is stdpp's [fmap] on lists. *)
Lemma map_fmap {A B} (f : A → B) (l : list A) : map f l = f <$> l.
Proof. reflexivity. Qed.

Lemma filter_none {A} (P : A → Prop) `{!∀ x, Decision (P x)} (l : list A) :
  Forall (fun x => ¬ P x) l → filter P l = [].
Proof.
  induction 1 as [|x l Hx _ IH]; [done|].
  by rewrite filter_cons_False.
Qed.

(** Where the images under [f] are distinct, an element is determined by its
    image. *)
Lemma NoDup_map_inj {A B} (f : A → B) (l : list A) x y :
  NoDup (map f l) → x ∈ l → y ∈ l → f x = f y → x = y.
Proof.
  induction l as [|a l IH]; cbn [map]; intros Hnd Hx Hy Heq.
  - by apply not_elem_of_nil in Hx.
  - apply NoDup_cons in Hnd as [Ha Hnd].
    apply elem_of_cons in Hx as [->|Hx]; apply elem_of_cons in Hy as [->|Hy].
    + done.
    + exfalso. apply Ha. rewrite Heq, map_fmap. by apply list_elem_of_fmap_2.
    + exfalso. apply Ha. rewrite <- Heq, map_fmap. by apply list_elem_of_fmap_2.
    + by apply IH.
Qed.

(** ** The bone name table *)

(** The table is looked up, never unfolded, in the proofs below; the facts
    about its entries are obtained by evaluation. *)
Opaque convert_fbx_to_glb.BONE_NAME_MAP.

Section table.
Import convert_fbx_to_glb.

Lemma dict_contains_lookup (d : gmap string string) k :
  dict_contains k d = true ↔ is_Some (d !! k).
Proof. unfold dict_contains. by rewrite bool_decide_eq_true. Qed.

(** The loop body never takes the [KeyError] branch: the lookup is guarded
    by the membership test. *)
Lemma rename_bone_eq bone c :
  rename_bone bone c =
  match BONE_NAME_MAP !! bone_name bone with
  | Some new_name => Returned (set_bone_name new_name bone, Datatypes.S c)
  | None => Returned (bone, c)
  end.
Proof.
  unfold rename_bone, dict_contains, dict_getitem.
  destruct (BONE_NAME_MAP !! bone_name bone) as [v|] eqn:E.
  - rewrite bool_decide_eq_true_2; [done | by eexists].
  - rewrite bool_decide_eq_false_2; [done | by intros [? ?]].
Qed.

Lemma translate_eq name :
  translate name = Returned (default name (BONE_NAME_MAP !! name)).
Proof.
  unfold translate. rewrite rename_bone_eq. simpl.
  by destruct (BONE_NAME_MAP !! name).
Qed.

(** No canonical name is a source name. *)
Lemma values_are_not_keys k v :
  BONE_NAME_MAP !! k = Some v → BONE_NAME_MAP !! v = None.
Proof.
  revert k v.
  change (map_Forall (fun _ v => BONE_NAME_MAP !! v = None) BONE_NAME_MAP).
  apply (bool_decide_unpack _). vm_compute. exact I.
Qed.


(** The pass over the bones, bone by bone. *)
Lemma rename_loop_eq bones c :
  rename_loop bones c =
  (Returned (c + length (filter (fun b => is_Some (BONE_NAME_MAP !! bone_name b)) bones)),
   map (fun b => set_bone_name (default (bone_name b) (BONE_NAME_MAP !! bone_name b)) b)
       bones).
Proof.
  revert c. induction bones as [|bone rest IH]; intros c; simpl.
  - by rewrite Nat.add_0_r.
  - rewrite rename_bone_eq.
    destruct (BONE_NAME_MAP !! bone_name bone) as [v|] eqn:E; rewrite IH; simpl.
    + rewrite filter_cons_True by (by rewrite E). simpl.
      do 2 f_equal. lia.
    + rewrite filter_cons_False by (rewrite E; by intros [? ?]).
      do 2 f_equal. by destruct bone.
Qed.

End table.

Section name_correspondence.
Import convert_fbx_to_glb.

(** C4: a name that is not in the table is returned as it is, and the
    translation of a name never raises ([KeyError] included): it returns a
    name for every input. *)
Theorem translate_total_identity_default (name : string) :
  (∃ name', translate name = Returned name') ∧
  (dict_contains name BONE_NAME_MAP = false → translate name = Returned name).
Proof.
  rewrite translate_eq. split; [by eexists|].
  intros Hnot. destruct (BONE_NAME_MAP !! name) as [v|] eqn:E; [|done].
  assert (dict_contains name BONE_NAME_MAP = true) as Hin
    by (apply dict_contains_lookup; rewrite E; by eexists).
  congruence.
Qed.

Lemma translate_total_identity_default_witness :
  dict_contains "Armature" BONE_NAME_MAP = false ∧
  translate "Armature" = Returned "Armature".
Proof.
  split; [by vm_compute|].
  apply (translate_total_identity_default "Armature"). by vm_compute.
Defined.

(** C3: translating a translated name changes nothing, and a second rename
    pass over the bones the first pass has left renames no bone. *)
Theorem translate_idempotent :
  (∀ x : string, translate x ≫= translate = translate x) ∧
  (∀ (bones : list EditBone) (c c' : nat),
      rename_loop (rename_loop bones c).2 c' = (Returned c', (rename_loop bones c).2)).
Proof.
  assert (Hname : ∀ x : string,
             BONE_NAME_MAP !! default x (BONE_NAME_MAP !! x) = None).
  { intros x. destruct (BONE_NAME_MAP !! x) as [v|] eqn:E; simpl; [|done].
    by eapply values_are_not_keys. }
  split.
  - intros x. rewrite translate_eq. simpl.
    change (translate (default x (BONE_NAME_MAP !! x)) =
            Returned (default x (BONE_NAME_MAP !! x))).
    by rewrite translate_eq, Hname.
  - intros bones c c'. rewrite (rename_loop_eq bones c). simpl.
    rewrite rename_loop_eq. f_equal.
    + f_equal. rewrite filter_none; [simpl; lia|].
      apply Forall_forall. intros b Hb.
      rewrite map_fmap in Hb.
      apply list_elem_of_fmap in Hb as (b0 & -> & _). simpl.
      rewrite Hname. by intros [? ?].
    + rewrite map_map. apply map_ext. intros b. simpl.
      by rewrite Hname.
Qed.



End name_correspondence.

(** ** The clean-up of the armature *)

Section hierarchy.
Import clean_ybot.

Lemma reparented_nil (bones : list EditBone) : map (reparented []) bones = bones.
Proof.
  induction bones as [|b bones IH]; [done|]. cbn [map]. by rewrite IH.
Qed.

Lemma reparented_cons c cs b :
  reparented cs (if bool_decide (bone_id b = bone_id c) then set_bone_parent None b else b)
  = reparented (c :: cs) b.
Proof.
  unfold reparented. cbn [map].
  destruct (decide (bone_id b = bone_id c)) as [Heq|Hne].
  - rewrite (bool_decide_eq_true_2 (bone_id b = bone_id c)) by done.
    rewrite (bool_decide_eq_true_2 (_ ∈ bone_id c :: _)) by (rewrite Heq; by left).
    cbn. by case_bool_decide.
  - rewrite (bool_decide_eq_false_2 (bone_id b = bone_id c)) by done.
    rewrite (bool_decide_ext (bone_id b ∈ bone_id c :: map bone_id cs)
                             (bone_id b ∈ map bone_id cs)); [done|].
    rewrite elem_of_cons. tauto.
Qed.

(** After the loop over [children], exactly the bones whose identity is
    that of a child have lost their parent. *)
Lemma reparent_loop_run (children : list EditBone) (o : Object) :
  run (for_each children (fun child =>
         modify (update_bone (bone_id child) (set_bone_parent None)) ;;
         print (Line ("  Reparented " +:+ bone_name child +:+ " to root")))) o =
  (Returned tt,
   set_edit_bones (map (reparented children) (edit_bones o)) o,
   map (fun child => Stdout (Line ("  Reparented " +:+ bone_name child +:+ " to root")))
       children).
Proof.
  revert o. induction children as [|c cs IH]; intros o.
  - rewrite reparented_nil. by destruct o.
  - cbn [for_each].
    erewrite bind_returned; [|reflexivity].
    rewrite IH. unfold outcome, final_state, trace. cbn [fst snd map app].
    f_equal. f_equal. destruct o as [i n t p ad dn bones vg].
    unfold update_bone, set_edit_bones. cbn. f_equal.
    rewrite map_map. apply map_ext. intros b. apply reparented_cons.
Qed.

(** The bones [remove_root_joint] leaves. *)
Lemma remove_root_joint_run (o : Object) :
  outcome (run remove_root_joint o) = Returned tt ∧
  final_state (run remove_root_joint o) =
    match edit_bones_get "_rootJoint" (edit_bones o) with
    | Some root_joint =>
        set_edit_bones
          (filter (fun b => bone_id b ≠ bone_id root_joint)
             (map (reparented
                     (filter (fun b => bone_parent b = Some (bone_id root_joint))
                             (edit_bones o)))
                  (edit_bones o))) o
    | None => o
    end.
Proof.
  unfold remove_root_joint.
  erewrite bind_returned; [|reflexivity].
  destruct (edit_bones_get "_rootJoint" (edit_bones o)) as [root_joint|]; [|done].
  erewrite bind_returned; [|apply reparent_loop_run].
  unfold outcome, final_state, trace. split; [done|].
  eff_unfold. cbn. unfold edit_bones_remove. by destruct o.
Qed.

Lemma unparent_run (o : Object) :
  outcome (run unparent o) = Returned tt ∧
  final_state (run unparent o) = set_obj_parent None o.
Proof.
  unfold unparent. erewrite bind_returned; [|reflexivity].
  destruct o as [i n t [p|] ad dn bones vg]; by cbn.
Qed.

Lemma normalize_armature_run (o : Object) :
  outcome (run normalize_armature o) = Returned tt ∧
  final_state (run normalize_armature o) =
    set_obj_parent None
      (final_state (run remove_root_joint
                      (set_data_name "Armature" (set_obj_name "Armature" o)))).
Proof.
  unfold normalize_armature.
  erewrite bind_returned; [|reflexivity].
  set (o1 := set_data_name "Armature" (set_obj_name "Armature" o)).
  destruct (remove_root_joint_run o1) as [Hout Hst].
  destruct (run remove_root_joint o1) as [[r o2] out] eqn:E.
  unfold outcome, final_state in Hout, Hst. cbn in Hout, Hst. subst r.
  erewrite bind_returned; [|exact E].
  destruct (unparent_run o2) as [Hout' Hst'].
  unfold outcome, final_state, trace in *. cbn. by rewrite Hout', Hst'.
Qed.

Lemma edit_bones_get_Some name bones b :
  edit_bones_get name bones = Some b → b ∈ bones ∧ bone_name b = name.
Proof.
  unfold edit_bones_get. intros H. apply find_some in H as [Hin Hname].
  split; [by apply list_elem_of_In|].
  by apply bool_decide_eq_true in Hname.
Qed.

Lemma edit_bones_get_None name bones :
  edit_bones_get name bones = None → name ∉ map bone_name bones.
Proof.
  unfold edit_bones_get. intros H Hin.
  rewrite map_fmap in Hin. apply list_elem_of_fmap in Hin as (b & -> & Hb).
  apply list_elem_of_In in Hb.
  pose proof (find_none _ _ H b Hb) as Hf. cbn in Hf.
  by apply bool_decide_eq_false in Hf.
Qed.

(** Among bones with distinct identities, a bone is determined by its
    identity, among bones with distinct names by its name. *)
Lemma bone_by_id (bones : list EditBone) b1 b2 :
  NoDup (map bone_id bones) → b1 ∈ bones → b2 ∈ bones →
  bone_id b1 = bone_id b2 → b1 = b2.
Proof.
  apply NoDup_map_inj.
Qed.

Lemma bone_by_name (bones : list EditBone) b1 b2 :
  NoDup (map bone_name bones) → b1 ∈ bones → b2 ∈ bones →
  bone_name b1 = bone_name b2 → b1 = b2.
Proof.
  apply NoDup_map_inj.
Qed.

Lemma reparented_id cs b : bone_id (reparented cs b) = bone_id b.
Proof. unfold reparented. by case_bool_decide. Qed.

Lemma reparented_name cs b : bone_name (reparented cs b) = bone_name b.
Proof. unfold reparented. by case_bool_decide. Qed.

(** A bone is reparented by the loop exactly when the wrapper bone is its
    parent. *)
Lemma child_of_root_joint (bones : list EditBone) (rid : nat) b :
  NoDup (map bone_id bones) → b ∈ bones →
  bone_id b ∈ map bone_id (filter (fun b => bone_parent b = Some rid) bones)
  ↔ bone_parent b = Some rid.
Proof.
  intros Hnd Hb. rewrite map_fmap, list_elem_of_fmap. split.
  - intros (c & Hid & Hc). apply list_elem_of_filter in Hc as [Hp Hc].
    by rewrite (bone_by_id bones b c).
  - intros Hp. exists b. split; [done|]. by apply list_elem_of_filter.
Qed.

Lemma filtered_ids (P1 P2 Q : EditBone → Prop)
    `{!∀ b, Decision (P1 b)} `{!∀ b, Decision (P2 b)} `{!∀ b, Decision (Q b)}
    (g : EditBone → EditBone) (l : list EditBone) :
  (∀ b, b ∈ l → bone_id (g b) = bone_id b ∧ (P2 (g b) ∧ P1 (g b) ↔ Q b)) →
  map bone_id (filter P1 (filter P2 (map g l))) = map bone_id (filter Q l).
Proof.
  induction l as [|b l IH]; intros Hall; [done|].
  destruct (Hall b) as [Hid Hiff]; [by left|].
  assert (IH' : map bone_id (filter P1 (filter P2 (map g l))) =
                map bone_id (filter Q l))
    by (apply IH; intros b' Hb'; apply Hall; by right).
  cbn [map]. rewrite (filter_cons P2), (filter_cons Q).
  destruct (decide (P2 (g b))) as [Hp2|Hp2].
  - rewrite (filter_cons P1). destruct (decide (P1 (g b))) as [Hp1|Hp1].
    + rewrite decide_True by tauto. cbn [map]. by rewrite Hid, IH'.
    + rewrite decide_False by tauto. done.
  - rewrite decide_False by tauto. done.
Qed.

(** For an armature whose bones have distinct names, [normalize_armature]
    returns, leaves no bone called [_rootJoint] and no parent on the armature
    object; the root bones it leaves are the bones that had no parent, the
    wrapper bone apart, and the children of the wrapper bone. *)
Lemma normalize_armature_spec (o : Object) :
  NoDup (map bone_id (edit_bones o)) →
  NoDup (map bone_name (edit_bones o)) →
  outcome (run normalize_armature o) = Returned tt ∧
  ("_rootJoint" ∉ map bone_name (edit_bones (final_state (run normalize_armature o)))) ∧
  obj_parent (final_state (run normalize_armature o)) = None ∧
  map bone_id (root_bones (final_state (run normalize_armature o))) =
    map bone_id (filter (fun b => lands_on_top (edit_bones o) b = true) (edit_bones o)).
Proof.
  intros Hids Hnames.
  destruct (normalize_armature_run o) as [Hout Hst]. rewrite Hst. clear Hst.
  split; [done|].
  set (o1 := set_data_name "Armature" (set_obj_name "Armature" o)).
  assert (Hb1 : edit_bones o1 = edit_bones o) by done.
  destruct (remove_root_joint_run o1) as [_ Hst]. rewrite Hst, Hb1. clear Hst.
  unfold root_bones, lands_on_top.
  destruct (edit_bones_get "_rootJoint" (edit_bones o)) as [r|] eqn:Hget.
  - apply edit_bones_get_Some in Hget as [Hr Hrname].
    cbn [set_obj_parent set_edit_bones edit_bones obj_parent].
    split; [|split; [done|]].
    + rewrite map_fmap, list_elem_of_fmap. intros (b' & Hname & Hb').
      apply list_elem_of_filter in Hb' as [Hne Hb'].
      rewrite map_fmap in Hb'. apply list_elem_of_fmap in Hb' as (b & -> & Hb).
      rewrite reparented_id in Hne. rewrite reparented_name in Hname.
      apply Hne. f_equal. apply (bone_by_name (edit_bones o)); [done..|congruence].
    + apply filtered_ids. intros b Hb. split; [apply reparented_id|].
      rewrite reparented_id. unfold reparented.
      pose proof (child_of_root_joint (edit_bones o) (bone_id r) b Hids Hb) as Hch.
      rewrite andb_true_iff, orb_true_iff, negb_true_iff,
              bool_decide_eq_false, !bool_decide_eq_true.
      case_bool_decide as Hin; cbn; intuition congruence.
  - apply edit_bones_get_None in Hget.
    cbn [set_obj_parent set_edit_bones edit_bones obj_parent].
    split; [done|]. split; [done|]. f_equal.
    apply list_filter_iff. intros b. by rewrite bool_decide_eq_true.
Qed.

End hierarchy.

(** ** The clip merger *)

Section clip_merger.
Import merge_animations.

Lemma new_nla_track_run name start action (o : Object) (ad : AnimData) :
  animation_data o = Some ad →
  run (new_nla_track name start action) o =
  (Returned tt,
   set_animation_data
     (Some (mkAnimData (ad_action ad)
              (nla_tracks ad ++ [mkNlaTrack name [mkNlaStrip name start action]]))) o,
   []).
Proof.
  intros Had. unfold new_nla_track. eff_unfold. cbn. by rewrite Had.
Qed.

Lemma track_loop_run (acts : gmap nat Action) (actions : list nat)
    (o : Object) (ad : AnimData) :
  animation_data o = Some ad →
  run (for_each actions (fun action =>
         let name := action_name (acts !!! action) in
         new_nla_track name (frame_range (acts !!! action)).1 action ;;
         print (Line ("Added NLA track: " +:+ name)))) o =
  (Returned tt,
   set_animation_data
     (Some (mkAnimData (ad_action ad) (nla_tracks ad ++ map (track_of acts) actions))) o,
   map (fun action => Stdout (Line ("Added NLA track: " +:+ action_name (acts !!! action))))
       actions).
Proof.
  revert o ad. induction actions as [|a actions IH]; intros o ad Had.
  - cbn [map]. rewrite app_nil_r. destruct o, ad. cbn in Had. by subst.
  - cbn [for_each].
    erewrite bind_returned; cycle 1.
    { erewrite bind_returned; [|by apply new_nla_track_run].
      reflexivity. }
    erewrite IH by reflexivity.
    unfold outcome, final_state, trace. cbn [fst snd map app ad_action nla_tracks].
    rewrite <- app_assoc. by destruct o.
Qed.

Lemma push_actions_run (acts : gmap nat Action) (actions : list nat) (o : Object) :
  let ad := default (mkAnimData None []) (animation_data o) in
  run (push_actions acts actions) o =
  (Returned tt,
   set_animation_data
     (Some (mkAnimData (match actions with first :: _ => Some first | [] => ad_action ad end)
                       (nla_tracks ad ++ map (track_of acts) actions))) o,
   map (fun action => Stdout (Line ("Added NLA track: " +:+ action_name (acts !!! action))))
       actions).
Proof.
  intros ad. unfold push_actions.
  assert (Hens : run ensure_animation_data o =
                 (Returned tt, set_animation_data (Some ad) o, [])).
  { unfold ensure_animation_data. erewrite bind_returned; [|reflexivity].
    subst ad. destruct o as [i n t p [ad0|] dn bones vg]; reflexivity. }
  erewrite bind_returned; [|exact Hens].
  erewrite bind_returned; [|by eapply track_loop_run].
  unfold outcome, final_state, trace. cbn [fst snd app].
  destruct actions as [|first rest].
  - cbn. by destruct o.
  - unfold set_action. erewrite bind_returned; [|reflexivity].
    unfold outcome, final_state, trace. cbn. rewrite app_nil_r. by destruct o.
Qed.

(** C1: the clip merger returns; the tracks it creates on the armature come
    after the tracks that were there, one per action and in the order of the
    list; the first action of the list is the active action.  On the clip
    list of three sources the exported asset has the tracks Idle, Walk, Run
    in this order and Idle as active clip. *)
Theorem tracks_follow_clip_order :
  (∀ (acts : gmap nat Action) (actions : list nat) (armature : Object),
      outcome (run (push_actions acts actions) armature) = Returned tt ∧
      track_names (final_state (run (push_actions acts actions) armature)) =
        track_names armature ++ map (fun a => action_name (acts !!! a)) actions ∧
      active_action (final_state (run (push_actions acts actions) armature)) =
        match actions with
        | first :: _ => Some first
        | [] => active_action armature
        end) ∧
  (∃ e armature,
      exports (trace (run (merge_animations_into_model Samples.world_abc
                             "y_bot.glb" "y_bot_animated.glb" Samples.clip_list)
                          empty_file)) = [e] ∧
      find (is_type ARMATURE) (exported_objects e) = Some armature ∧
      track_names armature = ["Idle"; "Walk"; "Run"] ∧
      active_clip (exported_actions e) armature = Some "Idle").
Proof.
  split.
  - intros acts actions armature. rewrite push_actions_run.
    unfold outcome, final_state, track_names, active_action.
    cbn [fst snd animation_data set_animation_data nla_tracks ad_action mbind option_bind].
    split; [done|]. split.
    + rewrite map_app, map_map. cbn [track_name track_of].
      by destruct (animation_data armature).
    + destruct actions; [|done]. by destruct (animation_data armature).
  - eexists _, _. split; [by vm_compute|]. split; [by vm_compute|].
    split; by vm_compute.
Qed.
End clip_merger.

(** ** The import of the clips *)

Section clip_import.
Import merge_animations.

Lemma find_imap_None {A B} (p : A → bool) (q : B → bool) (f : nat → A → B) (l : list A) :
  (∀ i x, q (f i x) = p x) → find p l = None → find q (imap f l) = None.
Proof.
  revert f. induction l as [|x l IH]; intros f Hpq Hfind; [done|].
  cbn in *. rewrite Hpq. destruct (p x); [done|].
  apply IH; [|done]. intros i y. apply Hpq.
Qed.






End clip_import.

(** ** The merge job *)

Section merge_job.
Import merge_animations.

(** The armature of the base model, in the file and in the scene. *)
Lemma base_armature_None (w : World) (model_glb_path : string) :
  find (is_type ARMATURE) (im_objects (gltf_file w model_glb_path)) = None →
  find (is_type ARMATURE)
    (objects (add_imported (gltf_file w model_glb_path) empty_file)) = None.
Proof. intros H. cbn. by apply (find_imap_None (is_type ARMATURE)). Qed.


(** The job, between the import of the base model and the import loop. *)
Lemma merge_run (w : World) (model_glb_path output_glb_path : string)
    (animation_files : list (string * string)) (b : Bpy) :
  run (merge_animations_into_model w model_glb_path output_glb_path animation_files) b =
  match find (is_type ARMATURE)
          (objects (add_imported (gltf_file w model_glb_path) empty_file)) with
  | Some arm =>
      match run (for_each_acc animation_files [] (import_animation w (obj_id arm))
                 ≫= export_with_actions (obj_id arm) output_glb_path)
                (add_imported (gltf_file w model_glb_path) empty_file) with
      | (r, b', out) =>
          (r, b', Stdout (Line ("Importing model: " +:+ model_glb_path))
                  :: Stdout (Line ("Found armature: " +:+ obj_name arm)) :: out)
      end
  | None =>
      (Returned tt, add_imported (gltf_file w model_glb_path) empty_file,
       [Stdout (Line ("Importing model: " +:+ model_glb_path));
        Stdout (Line "ERROR: No armature found in model!")])
  end.
Proof.
  unfold merge_animations_into_model.
  rewrite bind_run. change (run read_factory_settings b) with (Returned tt, empty_file, @nil Event).
  cbv beta iota.
  rewrite bind_run.
  change (run (print ?l) ?s) with (Returned tt, s, [Stdout l]). cbv beta iota.
  rewrite bind_run.
  change (run (import_scene_gltf w model_glb_path) empty_file)
    with (Returned tt, add_imported (gltf_file w model_glb_path) empty_file, @nil Event).
  cbv beta iota.
  set (b1 := add_imported (gltf_file w model_glb_path) empty_file).
  rewrite bind_run.
  change (run (first_object (is_type ARMATURE)) b1)
    with (Returned (find (is_type ARMATURE) (objects b1)), b1, @nil Event).
  cbv beta iota.
  destruct (find (is_type ARMATURE) (objects b1)) as [arm|]; [|reflexivity].
  rewrite bind_run.
  change (run (print ?l) ?s) with (Returned tt, s, [Stdout l]). cbv beta iota.
  by destruct (run _ b1) as [[r b'] out].
Qed.

(** Without an armature in the base model the job prints the error and
    returns; nothing is exported. *)
Lemma merge_without_armature (w : World) (model_glb_path output_glb_path : string)
    (animation_files : list (string * string)) (b : Bpy) :
  find (is_type ARMATURE) (im_objects (gltf_file w model_glb_path)) = None →
  run (merge_animations_into_model w model_glb_path output_glb_path animation_files) b =
  (Returned tt,
   add_imported (gltf_file w model_glb_path) empty_file,
   [Stdout (Line ("Importing model: " +:+ model_glb_path));
    Stdout (Line "ERROR: No armature found in model!")]).
Proof.
  intros H. apply (base_armature_None w) in H. by rewrite merge_run, H.
Qed.

Lemma exports_app (out1 out2 : list Event) :
  exports (out1 ++ out2) = exports out1 ++ exports out2.
Proof. unfold exports. apply omap_app. Qed.

Lemma exports_prints {A} (f : A → LogLine) (l : list A) :
  exports (map (fun x => Stdout (f x)) l) = [].
Proof. induction l as [|x l IH]; [done|]. exact IH. Qed.





(** C6, counterexample: on a base model without armature the job does not
    end by an exception; it returns. *)
Lemma job_without_skeleton_raises_nothing :
  ¬ ∃ exc : PyExc,
      outcome (run (merge_animations_into_model Samples.world_static
                      "cube.glb" "cube_animated.glb" Samples.clip_list)
                   empty_file) = Raised exc.
Proof. intros [exc H]. by vm_compute in H. Qed.

Lemma clean_ybot_without_armature (w : World) (b : Bpy) :
  find (is_type ARMATURE)
    (im_objects (gltf_file w (path_join w (characters_dir w) "y_bot.glb"))) = None →
  outcome (run (clean_ybot.main w) b) = Raised (SystemExit 1) ∧
  exports (trace (run (clean_ybot.main w) b)) = [].
Proof.
  intros H. apply (base_armature_None w) in H.
  unfold clean_ybot.main, read_factory_settings, import_scene_gltf, first_object.
  cbv zeta. do 7 eff_step.
    rewrite H. eff_step. done.
Qed.

(** C6, amended: when the base model has no armature, no file is exported.
    [merge_animations_into_model] prints the error line and returns, without
    an exception, so that whatever comes after it in the script runs.  The
    clean-up script prints the error line and ends the process by
    [exit(1)]. *)
Theorem no_skeleton_no_output (w : World) (b : Bpy) :
  (∀ (model_glb_path output_glb_path : string) (animation_files : list (string * string)),
      find (is_type ARMATURE) (im_objects (gltf_file w model_glb_path)) = None →
      let job := run (merge_animations_into_model w model_glb_path output_glb_path
                        animation_files) b in
      outcome job = Returned tt ∧
      exports (trace job) = [] ∧
      printed (trace job) = [Line ("Importing model: " +:+ model_glb_path);
                             Line "ERROR: No armature found in model!"] ∧
      ∀ next : Eff Bpy unit,
        run (merge_animations_into_model w model_glb_path output_glb_path animation_files
             ;; next) b =
        (outcome (run next (final_state job)),
         final_state (run next (final_state job)),
         trace job ++ trace (run next (final_state job)))) ∧
  (find (is_type ARMATURE)
     (im_objects (gltf_file w (path_join w (characters_dir w) "y_bot.glb"))) = None →
   outcome (run (clean_ybot.main w) b) = Raised (SystemExit 1) ∧
   exports (trace (run (clean_ybot.main w) b)) = []).
Proof.
  split; [|apply clean_ybot_without_armature].
  intros model_glb_path output_glb_path animation_files H job.
  assert (Hjob : job = (Returned tt,
              add_imported (gltf_file w model_glb_path) empty_file,
              [Stdout (Line ("Importing model: " +:+ model_glb_path));
               Stdout (Line "ERROR: No armature found in model!")]))
    by (by apply merge_without_armature).
  rewrite Hjob. repeat split; try done.
  intros next. erewrite bind_returned; [|by apply merge_without_armature].
  reflexivity.
Qed.

Lemma no_skeleton_no_output_witness :
  exports (trace (run (merge_animations_into_model Samples.world_static
                         "cube.glb" "cube_animated.glb" Samples.clip_list)
                      empty_file)) = [] ∧
  outcome (run (clean_ybot.main Samples.world_static) empty_file)
    = Raised (SystemExit 1).
Proof.
  assert (H : ∀ p, find (is_type ARMATURE)
                     (im_objects (gltf_file Samples.world_static p)) = None)
    by (intros p; by vm_compute).
  pose proof (no_skeleton_no_output Samples.world_static empty_file) as [Hmerge Hclean].
  split.
  - exact (proj1 (proj2 (Hmerge "cube.glb" "cube_animated.glb" Samples.clip_list
                           (H "cube.glb")))).
  - exact (proj1 (Hclean (H _))).
Defined.

(** C9, the code on a source saved with skin: the armature of each source
    is removed, its mesh is not, and the exported asset holds one more mesh
    per source than the base model. *)
Theorem imported_meshes_are_exported :
  map obj_name (filter (fun o => obj_type o = MESH) (im_objects Samples.ybot_glb))
    = ["Alpha_Surface"] ∧
  ∃ e,
    exports (trace (run (merge_animations_into_model Samples.world_skinned
                           "y_bot.glb" "y_bot_animated.glb" Samples.clip_list)
                        empty_file)) = [e] ∧
    map obj_name (filter (fun o => obj_type o = MESH) (exported_objects e))
      = ["Alpha_Surface"; "Beta_Surface"; "Beta_Surface"; "Beta_Surface"] ∧
    map obj_name (filter (fun o => obj_type o = ARMATURE) (exported_objects e))
      = ["Armature.001"].
Proof.
  split; [by vm_compute|].
  eexists. split; [by vm_compute|]. split; by vm_compute.
Qed.
End merge_job.

(** ** The rename pass in a scene *)

Section rename_in_scene.
Import convert_fbx_to_glb.


Lemma lookup_update_object id (o o' : Object) (objs : list Object) :
  lookup_object id objs = Some o → obj_id o' = id →
  lookup_object id (update_object id (fun _ => o') objs) = Some o'.
Proof.
  intros Hl Hid. unfold lookup_object in *.
  induction objs as [|x objs IH]; [done|]. cbn [find update_object] in *.
  destruct (is_object id x) eqn:E; cbn [find].
  - unfold is_object. by rewrite bool_decide_eq_true_2.
  - rewrite E. by apply IH.
Qed.

Lemma lookup_object_id id (o : Object) (objs : list Object) :
  lookup_object id objs = Some o → obj_id o = id.
Proof.
  intros H. apply find_some in H as [_ H]. by apply bool_decide_eq_true in H.
Qed.





End rename_in_scene.

(** ** The clean-up script *)

Section clean_up_script.
Import clean_ybot.

(** An import gives its objects distinct identities: the reference to an
    imported object reaches this object. *)
Lemma lookup_imported (o0 a0 : nat) (l : list Object) (k i : nat) (x : Object) :
  l !! i = Some x →
  find (is_object (o0 + (k + i)))
       (imap (fun j => relocate_object o0 a0 (k + j)) l)
  = Some (relocate_object o0 a0 (k + i) x).
Proof.
  revert k i. induction l as [|y l IH]; intros k i Hi; [done|].
  cbn [imap find]. destruct i as [|i].
  - injection Hi as ->. unfold is_object. cbn [obj_id relocate_object].
    by rewrite bool_decide_eq_true_2 by lia.
  - unfold is_object at 1. cbn [obj_id relocate_object].
    rewrite bool_decide_eq_false_2 by lia.
    replace (k + Datatypes.S i) with (Datatypes.S k + i) by lia.
    rewrite <- (IH (Datatypes.S k) i Hi). f_equal.
    apply imap_ext. intros j z _. cbn. f_equal. lia.
Qed.

Lemma find_imap_lookup {A B} (p : A → bool) (q : B → bool) (f : nat → A → B)
    (l : list A) (x : A) :
  (∀ i x, q (f i x) = p x) → find p l = Some x →
  ∃ i, l !! i = Some x ∧ find q (imap f l) = Some (f i x).
Proof.
  revert f. induction l as [|y l IH]; intros f Hpq Hfind; [done|].
  cbn in *. rewrite Hpq. destruct (p y).
  - injection Hfind as ->. by exists 0.
  - destruct (IH (f ∘ Datatypes.S)) as (i & Hi & Hf); [intros; apply Hpq|done|].
    by exists (Datatypes.S i).
Qed.

(** The armature that the script finds after the import is reached by its
    own reference. *)
Lemma found_armature_lookup (im : Imported) (arm : Object) :
  find (is_type ARMATURE) (objects (add_imported im empty_file)) = Some arm →
  lookup_object (obj_id arm) (objects (add_imported im empty_file)) = Some arm.
Proof.
  change (objects (add_imported im empty_file))
    with (imap (relocate_object 0 0) (im_objects im)).
  intros Hfind.
  destruct (find (is_type ARMATURE) (im_objects im)) as [arm0|] eqn:E; cycle 1.
  { by rewrite (find_imap_None (is_type ARMATURE) (is_type ARMATURE) (relocate_object 0 0)
                  _ (fun _ _ => eq_refl) E) in Hfind. }
  destruct (find_imap_lookup (is_type ARMATURE) (is_type ARMATURE) (relocate_object 0 0)
              _ _ (fun _ _ => eq_refl) E) as (i & Hi & Hf).
  rewrite Hf in Hfind. injection Hfind as <-.
  exact (lookup_imported 0 0 (im_objects im) 0 i arm0 Hi).
Qed.

Lemma update_object_twice id (o o1 o2 : Object) (objs : list Object) :
  lookup_object id objs = Some o → obj_id o1 = id →
  update_object id (fun _ => o2) (update_object id (fun _ => o1) objs)
  = update_object id (fun _ => o2) objs.
Proof.
  intros Hl Hid. unfold lookup_object in Hl.
  induction objs as [|x objs IH]; [done|]. cbn [find update_object] in *.
  destruct (is_object id x) eqn:E; cbn [update_object].
  - unfold is_object. by rewrite bool_decide_eq_true_2.
  - rewrite E. f_equal. by apply IH.
Qed.

(** Code on the object behind a reference, when the object is there and the
    code returns. *)
Lemma on_object_returns {A} id (m : Eff Object A) (o o' : Object) (a : A) out (b : Bpy) :
  lookup_object id (objects b) = Some o →
  run m o = (Returned a, o', out) →
  run (on_object id m) b =
  (Returned a, set_objects (update_object id (fun _ => o') (objects b)) b, out).
Proof.
  intros Hl Hm. unfold run in *. unfold on_object. by rewrite Hl, Hm.
Qed.

(** The removal of another object leaves an object without parent as it is
    and where it is. *)
Lemma lookup_object_removed id id' (o : Object) (b : Bpy) :
  id' ≠ id → obj_parent o = None →
  lookup_object id (objects b) = Some o →
  lookup_object id (objects (final_state (run (objects_remove id') b))) = Some o.
Proof.
  intros Hne Hpar. unfold final_state, run, objects_remove, modify. cbn [fst snd objects].
  unfold lookup_object. induction (objects b) as [|x l IH]; [done|].
  rewrite filter_cons. cbn [find]. unfold is_object at 1.
  case_bool_decide as Hid.
  - intros [= ->]. rewrite decide_True by congruence. cbn [map find].
    unfold unlink_parent. rewrite Hpar. rewrite bool_decide_eq_false_2 by done.
    unfold is_object. by rewrite bool_decide_eq_true_2.
  - intros Hl. destruct (decide (obj_id x ≠ id')); [|by apply IH].
    cbn [map find].
    assert (is_object id (unlink_parent id' x) = false) as ->; [|by apply IH].
    unfold unlink_parent, is_object. apply bool_decide_eq_false.
    by destruct (bool_decide (obj_parent x = Some id')).
Qed.

Lemma remove_loop_run (to_delete : list Object) id (o : Object) (b : Bpy) :
  Forall (fun obj => obj_id obj ≠ id) to_delete →
  obj_parent o = None →
  lookup_object id (objects b) = Some o →
  ∃ b',
    run (for_each to_delete (fun obj => objects_remove (obj_id obj))) b
      = (Returned tt, b', []) ∧
    lookup_object id (objects b') = Some o.
Proof.
  intros Hne Hpar. revert b. induction Hne as [|x l Hx _ IH]; intros b Hl.
  - by exists b.
  - destruct (IH (final_state (run (objects_remove (obj_id x)) b))) as (b' & Hrun & Hl').
    { by apply lookup_object_removed. }
    exists b'. split; [|done]. cbn [for_each].
    change (@nil Event) with (@nil Event ++ []).
    eapply bind_returns; [reflexivity|exact Hrun].
Qed.

Lemma remove_root_joint_exports (o : Object) :
  exports (trace (run remove_root_joint o)) = [].
Proof.
  unfold remove_root_joint. rewrite bind_run, run_get_state. cbv beta iota.
  destruct (edit_bones_get "_rootJoint" (edit_bones o)) as [root_joint|]; [|done].
  rewrite bind_run, reparent_loop_run. cbv beta iota.
  eff_step. rewrite run_print. cbv beta iota.
  unfold trace. cbn [snd app]. rewrite exports_app. by rewrite exports_prints.
Qed.

Lemma unparent_exports (o : Object) : exports (trace (run unparent o)) = [].
Proof.
  unfold unparent. rewrite bind_run, run_get_state. cbv beta iota.
  by destruct (obj_parent o).
Qed.

(** The three steps of the script on the armature are [normalize_armature]
    on the object behind the reference; what follows them runs from there. *)
Lemma armature_steps_run {A} id (o : Object) (b : Bpy) (k : Eff Bpy A) :
  lookup_object id (objects b) = Some o →
  let b' := set_objects
              (update_object id (fun _ => final_state (run normalize_armature o)) (objects b))
              (set_mode OBJECT (set_active_object (Some id) b)) in
  ∃ out,
    run (on_object id rename_armature ;;
         set_active id ;;
         mode_set EDIT ;;
         on_object id remove_root_joint ;;
         mode_set OBJECT ;;
         on_object id unparent ;;
         k) b =
    (outcome (run k b'), final_state (run k b'), out ++ trace (run k b')) ∧
    exports out = [].
Proof.
  intros Hl b'. pose proof (lookup_object_id _ _ _ Hl) as Hid.
  set (o1 := set_data_name "Armature" (set_obj_name "Armature" o)).
  destruct (remove_root_joint_run o1) as [Hout2 Hst2].
  pose proof (remove_root_joint_exports o1) as Hexp2.
  destruct (run remove_root_joint o1) as [[r2 o2] out2] eqn:E2.
  unfold outcome in Hout2. cbn [fst snd] in Hout2. subst r2.
  destruct (unparent_run o2) as [Hout3 Hst3].
  pose proof (unparent_exports o2) as Hexp3.
  destruct (run unparent o2) as [[r3 o3] out3] eqn:E3.
  unfold outcome in Hout3. cbn [fst snd] in Hout3. subst r3.
  unfold trace in Hexp2, Hexp3. cbn [snd] in Hexp2, Hexp3.
  assert (Hnorm : final_state (run normalize_armature o) = o3).
  { rewrite (proj2 (normalize_armature_run o)). fold o1. rewrite E2.
    unfold final_state in *. cbn [fst snd] in *. by rewrite Hst3. }
  assert (Hid1 : obj_id o1 = id) by exact Hid.
  assert (Hid2 : obj_id o2 = id).
  { unfold final_state in Hst2. cbn [fst snd] in Hst2. rewrite Hst2.
    by destruct (edit_bones_get "_rootJoint" (edit_bones o1)). }
  subst b'. rewrite Hnorm.
  exists ([Stdout (Line "Renamed armature to: Armature")] ++ out2 ++ out3). split.
  - erewrite bind_returned; [|by eapply (on_object_returns id rename_armature o o1)].
    unfold set_active, mode_set.
    erewrite bind_returned; [|apply run_modify].
    erewrite bind_returned; [|apply run_modify].
    erewrite bind_returned; cycle 1.
    { eapply (on_object_returns id remove_root_joint o1 o2); [|exact E2].
      cbn [objects set_mode set_active_object set_objects].
      by apply (lookup_update_object id o). }
    erewrite bind_returned; [|apply run_modify].
    erewrite bind_returned; cycle 1.
    { eapply (on_object_returns id unparent o2 o3); [|exact E3].
      cbn [objects set_mode set_active_object set_objects].
      rewrite (update_object_twice id o o1 o2 (objects b) Hl Hid1).
      by apply (lookup_update_object id o). }
    cbn [objects set_mode set_active_object set_objects].
    rewrite (update_object_twice id o o1 o2 (objects b) Hl Hid1).
    rewrite (update_object_twice id o o2 o3 (objects b) Hl Hid2).
    unfold outcome, final_state, trace. cbn [fst snd app].
    by rewrite <- app_assoc.
  - by rewrite !exports_app, Hexp2, Hexp3.
Qed.

(** The end of the script keeps the armature, once it has no parent, and
    exports the scene. *)
Lemma delete_others_and_export_run id (output_path : string) (o : Object) (b : Bpy) :
  lookup_object id (objects b) = Some o →
  obj_parent o = None →
  ∃ e out1 out2 b',
    run (delete_others_and_export id output_path) b =
      (Returned tt, b', out1 ++ ExportGltf e :: out2) ∧
    exports out1 = [] ∧ exports out2 = [] ∧
    filepath e = output_path ∧
    lookup_object id (exported_objects e) = Some o.
Proof.
  intros Hl Hpar. unfold delete_others_and_export.
  rewrite bind_run, run_get_state. cbv beta iota zeta.
  set (to_delete := filter _ (objects b)).
  assert (Hothers : Forall (fun obj => obj_id obj ≠ id) to_delete).
  { apply Forall_forall. intros x Hx. subst to_delete.
    by apply list_elem_of_filter in Hx as [[Hx _] _]. }
  destruct (remove_loop_run to_delete id o b Hothers Hpar Hl) as (b1 & Hloop & Hl1).
  eff_step. rewrite bind_run, Hloop. cbv beta iota.
  unfold select_all, set_active, export_scene_gltf.
  repeat eff_step.
  eexists _, [_; _; _], [_; _], _. split; [reflexivity|].
  split; [done|]. split; [done|]. split; [done|]. exact Hl1.
Qed.

(** The script on a base model with an armature: it returns and exports one
    file, in which the object behind the armature reference is the armature
    after [normalize_armature]. *)
Lemma clean_ybot_exports_normalized (w : World) (b : Bpy) (arm : Object) :
  find (is_type ARMATURE)
    (objects (add_imported (gltf_file w (path_join w (characters_dir w) "y_bot.glb"))
                empty_file)) = Some arm →
  ∃ e,
    outcome (run (main w) b) = Returned tt ∧
    exports (trace (run (main w) b)) = [e] ∧
    filepath e = path_join w (characters_dir w) "y_bot_clean.glb" ∧
    lookup_object (obj_id arm) (exported_objects e)
      = Some (final_state (run normalize_armature arm)).
Proof.
  intros Hfind. pose proof (found_armature_lookup _ _ Hfind) as Hl.
  unfold main, read_factory_settings, import_scene_gltf, first_object.
  cbv zeta. do 7 eff_step. rewrite Hfind. eff_step.
  set (b1 := add_imported _ empty_file) in *.
  set (output_path := path_join w (characters_dir w) "y_bot_clean.glb").
  destruct (armature_steps_run (obj_id arm) arm b1
              (delete_others_and_export (obj_id arm) output_path) Hl)
    as (out & -> & Hout).
  cbv beta iota zeta.
  destruct (delete_others_and_export_run (obj_id arm) output_path
              (final_state (run normalize_armature arm))
              (set_objects
                 (update_object (obj_id arm)
                    (fun _ => final_state (run normalize_armature arm)) (objects b1))
                 (set_mode OBJECT (set_active_object (Some (obj_id arm)) b1))))
    as (e & out1 & out2 & b2 & -> & Hout1 & Hout2 & Hpath & He).
  { cbn [objects set_objects]. apply (lookup_update_object _ arm); [exact Hl|].
    rewrite (proj2 (normalize_armature_run arm)). cbn [obj_id set_obj_parent].
    destruct (remove_root_joint_run (set_data_name "Armature" (set_obj_name "Armature" arm)))
      as [_ ->].
    by destruct (edit_bones_get _ _). }
  { by rewrite (proj2 (normalize_armature_run arm)). }
  exists e. unfold outcome, final_state, trace. cbn [fst snd].
  split; [done|]. split; [|done].
  change (exports ([Stdout (Line ("Input: " +:+ path_join w (characters_dir w) "y_bot.glb"))]
                   ++ [Stdout (Line ("Output: " +:+ output_path))]
                   ++ [Stdout (Line "Importing Y-Bot...")]
                   ++ [Stdout (Line ("Found armature: " +:+ obj_name arm))]
                   ++ out ++ out1 ++ [ExportGltf e] ++ out2) = [e]).
  by rewrite !exports_app, Hout, Hout1, Hout2.
Qed.

(** C2, counterexample: on a base model whose wrapper bone has two children
    the script exports an armature with two root bones. *)
Lemma two_children_make_two_roots :
  ∃ e armature,
    exports (trace (run (main Samples.world_two_roots) empty_file)) = [e] ∧
    find (is_type ARMATURE) (exported_objects e) = Some armature ∧
    map bone_name (root_bones armature) = ["mixamorig:Hips_01"; "Prop"] ∧
    length (root_bones armature) ≠ 1.
Proof.
  eexists _, _. split; [by vm_compute|]. split; [by vm_compute|].
  split; by vm_compute.
Qed.

(** C2, amended: when the base model has an armature whose bones have
    distinct names, the script returns and exports one file; the armature in
    it has no bone called [_rootJoint] and no parent, and its root bones are
    the bones that had no parent, the wrapper bone apart, and the children of
    the wrapper bone. *)
Theorem normalized_skeleton (w : World) (b : Bpy) (arm : Object) :
  find (is_type ARMATURE)
    (objects (add_imported (gltf_file w (path_join w (characters_dir w) "y_bot.glb"))
                empty_file)) = Some arm →
  NoDup (map bone_id (edit_bones arm)) →
  NoDup (map bone_name (edit_bones arm)) →
  ∃ e armature,
    outcome (run (main w) b) = Returned tt ∧
    exports (trace (run (main w) b)) = [e] ∧
    lookup_object (obj_id arm) (exported_objects e) = Some armature ∧
    ("_rootJoint" ∉ map bone_name (edit_bones armature)) ∧
    obj_parent armature = None ∧
    map bone_id (root_bones armature) =
      map bone_id (filter (fun b => lands_on_top (edit_bones arm) b = true)
                          (edit_bones arm)).
Proof.
  intros Hfind Hids Hnames.
  destruct (clean_ybot_exports_normalized w b arm Hfind) as (e & Hout & Hexp & _ & Hl).
  destruct (normalize_armature_spec arm Hids Hnames) as (_ & Hname & Hpar & Hroots).
  by exists e, (final_state (run normalize_armature arm)).
Qed.

Lemma normalized_skeleton_witness :
  ∃ e armature,
    exports (trace (run (main Samples.world_abc) empty_file)) = [e] ∧
    lookup_object 1 (exported_objects e) = Some armature ∧
    ("_rootJoint" ∉ map bone_name (edit_bones armature)) ∧
    obj_parent armature = None ∧
    map bone_id (root_bones armature) = [1] ∧
    map bone_name (root_bones armature) = ["mixamorig:Hips_01"].
Proof.
  destruct (normalized_skeleton Samples.world_abc empty_file
              (relocate_object 0 0 1
                 (Samples.armature_object "Armature.001" (Some 0) None Samples.ybot_bones)))
    as (e & armature & _ & Hexp & Hl & Hname & Hpar & Hroots).
  - by vm_compute.
  - apply (bool_decide_unpack _). by vm_compute.
  - apply (bool_decide_unpack _). by vm_compute.
  - exists e, armature. split; [exact Hexp|]. split; [exact Hl|].
    split; [exact Hname|]. split; [exact Hpar|]. split; [exact Hroots|].
    revert Hl.
    assert (Hcomp : exports (trace (run (main Samples.world_abc) empty_file)) = [e])
      by exact Hexp.
    vm_compute in Hcomp. injection Hcomp as <-. vm_compute. by intros [= <-].
Defined.
End clean_up_script.

(** * Further properties of the scripts *)

(** ** The scene a job starts from *)

Section fresh_scene.

(** X1: a job first empties the scene: what it does, leaves and shows does not
    depend on the state of the process before it. *)
Theorem jobs_start_from_empty_scene (w : World) (b b' : Bpy) :
  (∀ (model_glb_path output_glb_path : string) (animation_files : list (string * string)),
      run (merge_animations.merge_animations_into_model w model_glb_path output_glb_path
             animation_files) b =
      run (merge_animations.merge_animations_into_model w model_glb_path output_glb_path
             animation_files) b') ∧
  (∀ fbx_path glb_path : string,
      run (convert_fbx_to_glb.convert_fbx_to_glb w fbx_path glb_path) b =
      run (convert_fbx_to_glb.convert_fbx_to_glb w fbx_path glb_path) b') ∧
  run (clean_ybot.main w) b = run (clean_ybot.main w) b'.
Proof.
  split; [|split].
  - intros. unfold merge_animations.merge_animations_into_model, read_factory_settings.
    by rewrite !(bind_run (put_state empty_file)), !run_put_state.
  - intros. unfold convert_fbx_to_glb.convert_fbx_to_glb, read_factory_settings.
    by rewrite !(bind_run (put_state empty_file)), !run_put_state.
  - unfold clean_ybot.main, read_factory_settings. cbv zeta.
    do 2 (rewrite !(bind_run (print _)), !run_print; cbv beta iota).
    by rewrite !(bind_run (put_state empty_file)), !run_put_state.
Qed.
End fresh_scene.

(** ** The shape of the canonical names *)

Section name_shape.
Import convert_fbx_to_glb.

Lemma prefix_refl (s : string) : String.prefix s s = true.
Proof.
  induction s as [|c s IH]; [done|]. cbn.
  by destruct (Ascii.ascii_dec c c).
Qed.

(** X2: the translation only appends to a name, and it leaves every name that
    does not start with [mixamorig:] as it is. *)
Theorem translate_extends_names (name : string) :
  (∀ name', translate name = Returned name' → String.prefix name name' = true) ∧
  (String.prefix "mixamorig:" name = false → translate name = Returned name).
Proof.
  assert (Htable : map_Forall (fun k v =>
            String.prefix k v = true ∧ String.prefix "mixamorig:" k = true) BONE_NAME_MAP).
  { apply (bool_decide_unpack _). by vm_compute. }
  rewrite translate_eq. destruct (BONE_NAME_MAP !! name) as [v|] eqn:E; cbn.
  - destruct (Htable name v E) as [Hpre Hmix]. split.
    + by intros ? [= <-].
    + congruence.
  - split; [|done]. intros ? [= <-]. apply prefix_refl.
Qed.

Lemma translate_extends_names_witness :
  String.prefix "mixamorig:" "_rootJoint" = false ∧
  translate "_rootJoint" = Returned "_rootJoint" ∧
  String.prefix "mixamorig:Hips" "mixamorig:Hips_01" = true.
Proof.
  split; [by vm_compute|]. split.
  - apply (proj2 (translate_extends_names "_rootJoint")). by vm_compute.
  - apply (proj1 (translate_extends_names "mixamorig:Hips")). by vm_compute.
Defined.
End name_shape.

(** ** What the rename pass keeps *)

Section rename_frame.
Import convert_fbx_to_glb.

(** X3: the rename pass changes names only: the bones stay in their order, each
    with its identity and its parent.  The pass runs to its end, and the count
    it reports is the number of bones whose name is in the table. *)
Theorem rename_pass_keeps_hierarchy (bones : list EditBone) (c : nat) :
  (rename_loop bones c).1 =
    Returned (c + length (filter (fun b => dict_contains (bone_name b) BONE_NAME_MAP = true)
                                 bones)) ∧
  (List.length (filter (fun b => dict_contains (bone_name b) BONE_NAME_MAP = true) bones)
     ≤ List.length bones)%nat ∧
  map bone_id (rename_loop bones c).2 = map bone_id bones ∧
  map bone_parent (rename_loop bones c).2 = map bone_parent bones.
Proof.
  rewrite rename_loop_eq. cbn [fst snd]. split; [|split; [|split]].
  - do 3 f_equal. apply list_filter_iff. intros b.
    by rewrite dict_contains_lookup.
  - apply length_filter.
  - rewrite map_map. by apply map_ext.
  - rewrite map_map. by apply map_ext.
Qed.
End rename_frame.

(** ** What the clean-up keeps *)

Section cleanup_frame.
Import clean_ybot.

Lemma edit_bones_get_absent name (bones : list EditBone) :
  name ∉ map bone_name bones → edit_bones_get name bones = None.
Proof.
  intros Hnot. unfold edit_bones_get.
  destruct (find _ bones) as [b|] eqn:E; [|done].
  apply find_some in E as [Hin Hname]. apply bool_decide_eq_true in Hname.
  exfalso. apply Hnot. rewrite map_fmap, <- Hname.
  apply list_elem_of_fmap_2. by apply list_elem_of_In.
Qed.

(** X4: the removal of the wrapper bone touches nothing else.  Without a bone
    called [_rootJoint] the armature stays as it is and nothing is printed.
    With one, every other bone stays, in order and under its identity and
    name; it keeps its parent, unless that was the wrapper bone: then it has
    none. *)
Theorem remove_root_joint_keeps_other_bones (o : Object) :
  NoDup (map bone_id (edit_bones o)) →
  outcome (run remove_root_joint o) = Returned tt ∧
  match edit_bones_get "_rootJoint" (edit_bones o) with
  | None => run remove_root_joint o = (Returned tt, o, [])
  | Some root_joint =>
      Forall2 (fun old new =>
                 bone_id new = bone_id old ∧ bone_name new = bone_name old ∧
                 bone_parent new =
                   if bool_decide (bone_parent old = Some (bone_id root_joint))
                   then None else bone_parent old)
        (filter (fun b => bone_id b ≠ bone_id root_joint) (edit_bones o))
        (edit_bones (final_state (run remove_root_joint o)))
  end.
Proof.
  intros Hids. destruct (remove_root_joint_run o) as [Hout Hst]. split; [done|].
  destruct (edit_bones_get "_rootJoint" (edit_bones o)) as [r|] eqn:Hget.
  - rewrite Hst. cbn [edit_bones set_edit_bones].
    set (children := filter (fun b => bone_parent b = Some (bone_id r)) (edit_bones o)).
    assert (Hall : ∀ l, (∀ b, b ∈ l → b ∈ edit_bones o) →
              Forall2 (fun old new =>
                 bone_id new = bone_id old ∧ bone_name new = bone_name old ∧
                 bone_parent new =
                   if bool_decide (bone_parent old = Some (bone_id r))
                   then None else bone_parent old)
                (filter (fun b => bone_id b ≠ bone_id r) l)
                (filter (fun b => bone_id b ≠ bone_id r) (map (reparented children) l))).
    { induction l as [|b l IH]; intros Hsub; [constructor|].
      cbn [map]. rewrite !filter_cons, reparented_id.
      destruct (decide (bone_id b ≠ bone_id r)) as [Hne|Heq];
        [|apply IH; intros; apply Hsub; by right].
      constructor; [|apply IH; intros; apply Hsub; by right].
      split; [apply reparented_id|]. split; [apply reparented_name|].
      pose proof (child_of_root_joint (edit_bones o) (bone_id r) b Hids
                    (Hsub b ltac:(by left))) as Hch.
      unfold reparented. subst children.
      case_bool_decide as Hin; case_bool_decide as Hp; try done; exfalso.
      + by apply Hp, Hch.
      + by apply Hin, Hch. }
    by apply Hall.
  - unfold remove_root_joint. rewrite bind_run, run_get_state. cbv beta iota.
    by rewrite Hget.
Qed.

Lemma remove_root_joint_keeps_other_bones_witness :
  map bone_name (edit_bones (final_state (run remove_root_joint
        (Samples.armature_object "Armature" None None Samples.ybot_bones)))) =
    ["mixamorig:Hips_01"; "mixamorig:Spine_02"; "mixamorig:LeftUpLeg_056"] ∧
  Forall2 (fun old new =>
             bone_id new = bone_id old ∧ bone_name new = bone_name old ∧
             bone_parent new =
               if bool_decide (bone_parent old = Some 0) then None else bone_parent old)
    (filter (fun b => bone_id b ≠ 0) Samples.ybot_bones)
    (edit_bones (final_state (run remove_root_joint
        (Samples.armature_object "Armature" None None Samples.ybot_bones)))).
Proof.
  split; [by vm_compute|].
  refine (proj2 (remove_root_joint_keeps_other_bones
                   (Samples.armature_object "Armature" None None Samples.ybot_bones) _)).
  apply (bool_decide_unpack _). by vm_compute.
Defined.

(** X5: the clean-up of an armature can be run again: on an armature whose bones
    have distinct names a second run changes nothing. *)
Theorem normalize_armature_twice (o : Object) :
  NoDup (map bone_id (edit_bones o)) →
  NoDup (map bone_name (edit_bones o)) →
  final_state (run normalize_armature (final_state (run normalize_armature o)))
  = final_state (run normalize_armature o).
Proof.
  intros Hids Hnames.
  destruct (normalize_armature_spec o Hids Hnames) as (_ & Hname & Hpar & _).
  set (o' := final_state (run normalize_armature o)) in *.
  assert (Hnamed : obj_name o' = "Armature" ∧ data_name o' = "Armature").
  { subst o'. rewrite (proj2 (normalize_armature_run o)).
    destruct (remove_root_joint_run (set_data_name "Armature" (set_obj_name "Armature" o)))
      as [_ ->].
    by destruct (edit_bones_get _ _). }
  rewrite (proj2 (normalize_armature_run o')).
  assert (Ho1 : set_data_name "Armature" (set_obj_name "Armature" o') = o').
  { destruct Hnamed as [Hn Hd]. destruct o'. cbn in *. by subst. }
  rewrite Ho1. destruct (remove_root_joint_run o') as [_ ->].
  rewrite (edit_bones_get_absent _ _ Hname).
  destruct o'. cbn in *. by subst.
Qed.

Lemma normalize_armature_twice_witness :
  final_state (run normalize_armature (final_state (run normalize_armature
      (Samples.armature_object "Armature.001" (Some 0) None Samples.ybot_bones))))
  = final_state (run normalize_armature
      (Samples.armature_object "Armature.001" (Some 0) None Samples.ybot_bones)).
Proof.
  apply normalize_armature_twice; apply (bool_decide_unpack _); by vm_compute.
Defined.
End cleanup_frame.

(** ** The merge job as a whole *)

Section merge_whole.
Import merge_animations.

Lemma lookup_object_app_Some id (l l' : list Object) (o : Object) :
  lookup_object id l = Some o → lookup_object id (l ++ l') = Some o.
Proof.
  unfold lookup_object. induction l as [|x l IH]; cbn [app find]; [done|].
  by destruct (is_object id x).
Qed.

Lemma lookup_object_remove_Some id id' (l : list Object) (o : Object) :
  id' ≠ id →
  lookup_object id l = Some o →
  lookup_object id (map (unlink_parent id') (filter (fun o => obj_id o ≠ id') l))
  = Some (unlink_parent id' o).
Proof.
  intros Hne. unfold lookup_object. induction l as [|x l IH]; [done|].
  rewrite filter_cons. cbn [find]. unfold is_object at 1.
  case_bool_decide as Hid.
  - intros [= ->]. rewrite decide_True by congruence. cbn [map find].
    assert (is_object id (unlink_parent id' o) = true) as ->; [|done].
    unfold unlink_parent, is_object. apply bool_decide_eq_true.
    by destruct (bool_decide (obj_parent o = Some id')).
  - intros Hl. destruct (decide (obj_id x ≠ id')); [|by apply IH].
    cbn [map find].
    assert (is_object id (unlink_parent id' x) = false) as ->; [|by apply IH].
    unfold unlink_parent, is_object. apply bool_decide_eq_false.
    by destruct (bool_decide (obj_parent x = Some id')).
Qed.

Lemma unlink_parent_animation_data id (o : Object) :
  animation_data (unlink_parent id o) = animation_data o.
Proof. unfold unlink_parent. by destruct (bool_decide _). Qed.

(** One turn of the import loop: the base armature stays in the scene with
    its animation data, and at most one action is added, none for a source
    that is not there. *)
Lemma import_animation_keeps_armature (w : World) (armature : nat)
    (actions : list nat) (item : string * string) (b : Bpy) (o : Object) :
  lookup_object armature (objects b) = Some o →
  ∃ actions' b' out o',
    run (import_animation w armature actions item) b = (Returned actions', b', out) ∧
    lookup_object armature (objects b') = Some o' ∧
    animation_data o' = animation_data o ∧
    (length actions' ≤ length actions +
       (if path_exists w (path_join w (animations_dir w) item.1) then 1 else 0))%nat ∧
    exports out = [].
Proof.
  intros Hl. destruct item as [fbx_name action_name]. unfold import_animation. cbn [fst].
  destruct (path_exists w _); cbn [negb].
  - unfold import_scene_fbx, first_object, convert_fbx_to_glb.rename_action,
           objects_remove.
    eff_unfold. cbn.
    set (objs := objects b ++ _).
    assert (Hl' : lookup_object armature objs = Some o)
      by (by apply lookup_object_app_Some).
    destruct (find _ objs) as [obj|] eqn:Hfind.
    + apply find_some in Hfind as [_ Hobj].
      apply andb_true_iff in Hobj as [_ Hobj]. apply negb_true_iff in Hobj.
      apply bool_decide_eq_false in Hobj.
      destruct (active_action obj) as [action|]; cbn;
        (eexists _, _, _, (unlink_parent (obj_id obj) o);
         split; [reflexivity|]; split;
         [cbn; by apply lookup_object_remove_Some|];
         split; [apply unlink_parent_animation_data|]; split; [|done]).
      * rewrite length_app. cbn. lia.
      * lia.
    + cbn. eexists _, _, _, o. split; [reflexivity|].
      split; [exact Hl'|]. split; [done|]. split; [lia|done].
  - eff_unfold. cbn. eexists _, _, _, o. split; [reflexivity|].
    split; [done|]. split; [done|]. split; [lia|done].
Qed.

Lemma import_loop_keeps_armature (w : World) (armature : nat)
    (animation_files : list (string * string)) (actions : list nat) (b : Bpy) (o : Object) :
  lookup_object armature (objects b) = Some o →
  ∃ actions' b' out o',
    run (for_each_acc animation_files actions (import_animation w armature)) b
      = (Returned actions', b', out) ∧
    lookup_object armature (objects b') = Some o' ∧
    animation_data o' = animation_data o ∧
    (length actions' ≤ length actions +
       length (filter (fun item =>
                 path_exists w (path_join w (animations_dir w) item.1) = true)
               animation_files))%nat ∧
    exports out = [].
Proof.
  revert actions b o. induction animation_files as [|item l IH]; intros actions b o Hl.
  - eexists actions, b, [], o. split; [reflexivity|]. cbn. repeat split; try done. lia.
  - destruct (import_animation_keeps_armature w armature actions item b o Hl)
      as (actions1 & b1 & out1 & o1 & Hrun1 & Hl1 & Had1 & Hlen1 & Hexp1).
    destruct (IH actions1 b1 o1 Hl1)
      as (actions2 & b2 & out2 & o2 & Hrun2 & Hl2 & Had2 & Hlen2 & Hexp2).
    exists actions2, b2, (out1 ++ out2), o2. split; [|split; [|split; [|split]]].
    + cbn [for_each_acc]. by eapply bind_returns.
    + done.
    + congruence.
    + rewrite filter_cons.
      destruct (path_exists w (path_join w (animations_dir w) item.1)) eqn:E.
      * rewrite decide_True by done. cbn [length]. lia.
      * rewrite decide_False by done. lia.
    + by rewrite exports_app, Hexp1, Hexp2.
Qed.

(** The end of the job: the exported object behind the armature reference is
    the armature after [push_actions]. *)
Lemma export_with_actions_exports (armature : nat) (output_glb_path : string)
    (actions : list nat) (b : Bpy) (o : Object) :
  lookup_object armature (objects b) = Some o →
  ∃ b' e tracks,
    run (export_with_actions armature output_glb_path actions) b =
      (Returned tt, b',
       tracks ++ [Stdout (Line ("Exporting: " +:+ output_glb_path));
                  ExportGltf e;
                  Stdout (LineCount "Done! Exported " (length actions) " animations")]) ∧
    exports tracks = [] ∧
    filepath e = output_glb_path ∧
    export_animation_mode e = NLA_TRACKS ∧
    lookup_object armature (exported_objects e)
      = Some (final_state (run (push_actions (data_actions b) actions) o)).
Proof.
  intros Ho. pose proof (lookup_object_id _ _ _ Ho) as Hid.
  unfold export_with_actions.
  rewrite bind_run, run_get_state. cbv beta iota. rewrite bind_run.
  rewrite (on_object_returns armature _ o _ tt _ b Ho (push_actions_run _ _ _)).
  cbv beta iota. unfold select_all, set_active, export_scene_gltf.
  repeat eff_step.
  eexists _, _, _. split; [reflexivity|].
  split; [apply exports_prints|]. split; [done|]. split; [done|].
  cbn [exported_objects objects set_objects set_selected set_active_object].
  rewrite push_actions_run. unfold final_state. cbn [fst snd].
  by apply (lookup_update_object _ o).
Qed.


(** X7: the exported armature carries the tracks it had in the base model,
    followed by the tracks of the job.  The job adds at most one track per
    source that is there, and the number it reports is the number of tracks it
    has added. *)
Theorem merged_armature_tracks (w : World) (model_glb_path output_glb_path : string)
    (animation_files : list (string * string)) (b : Bpy) (arm : Object) :
  find (is_type ARMATURE)
    (objects (add_imported (gltf_file w model_glb_path) empty_file)) = Some arm →
  ∃ e armature (added : list string),
    exports (trace (run (merge_animations_into_model w model_glb_path output_glb_path
                           animation_files) b)) = [e] ∧
    lookup_object (obj_id arm) (exported_objects e) = Some armature ∧
    track_names armature = track_names arm ++ added ∧
    (length added ≤
       length (filter (fun item =>
                 path_exists w (path_join w (animations_dir w) item.1) = true)
               animation_files))%nat ∧
    last (trace (run (merge_animations_into_model w model_glb_path output_glb_path
                        animation_files) b))
      = Some (Stdout (LineCount "Done! Exported " (length added) " animations")).
Proof.
  intros Hfind. pose proof (found_armature_lookup _ _ Hfind) as Hl.
  rewrite merge_run, Hfind.
  destruct (import_loop_keeps_armature w (obj_id arm) animation_files []
              (add_imported (gltf_file w model_glb_path) empty_file) arm Hl)
    as (actions & b2 & out & o & Hloop & Hl2 & Had & Hlen & Hexp).
  destruct (export_with_actions_exports (obj_id arm) output_glb_path actions b2 o Hl2)
    as (b3 & e & tracks & Hend & Hexp3 & _ & _ & He).
  rewrite (bind_returns _ _ _ _ _ _ _ _ _ Hloop Hend).
  unfold trace. cbn [fst snd].
  exists e, (final_state (run (push_actions (data_actions b2) actions) o)),
         (map (fun a => action_name (data_actions b2 !!! a)) actions).
  split; [|split; [exact He|split; [|split]]].
  - change (exports (out ++ tracks ++
              [Stdout (Line ("Exporting: " +:+ output_glb_path)); ExportGltf e;
               Stdout (LineCount "Done! Exported " (length actions) " animations")]) = [e]).
    by rewrite !exports_app, Hexp, Hexp3.
  - rewrite push_actions_run. unfold final_state, track_names.
    cbn [fst snd animation_data set_animation_data nla_tracks].
    rewrite map_app, map_map, Had. cbn [track_name track_of].
    by destruct (animation_data arm).
  - rewrite length_map. cbn [length] in Hlen. lia.
  - rewrite length_map, !app_comm_cons, !app_assoc.
    change [Stdout (Line ("Exporting: " +:+ output_glb_path)); ExportGltf e;
            Stdout (LineCount "Done! Exported " (length actions) " animations")]
      with ([Stdout (Line ("Exporting: " +:+ output_glb_path)); ExportGltf e] ++
            [Stdout (LineCount "Done! Exported " (length actions) " animations")]).
    rewrite app_assoc. apply last_snoc.
Qed.

Lemma merged_armature_tracks_witness :
  ∃ e armature added,
    exports (trace (run (merge_animations_into_model Samples.world_ac
                           "y_bot.glb" "y_bot_animated.glb" Samples.clip_list)
                        empty_file)) = [e] ∧
    lookup_object 1 (exported_objects e) = Some armature ∧
    track_names armature = added ∧
    (length added ≤ 2)%nat.
Proof.
  destruct (merged_armature_tracks Samples.world_ac "y_bot.glb" "y_bot_animated.glb"
              Samples.clip_list empty_file
              (relocate_object 0 0 1
                 (Samples.armature_object "Armature.001" (Some 0) None Samples.ybot_bones)))
    as (e & armature & added & Hexp & Hl & Htracks & Hlen & _); [by vm_compute|].
  exists e, armature, added. split; [exact Hexp|]. split; [exact Hl|].
  split; [exact Htracks|]. exact Hlen.
Defined.
End merge_whole.

(** ** The conversion of one source *)


Section conversion.
Import convert_fbx_to_glb.




End conversion.

(** ** What the clean-up script exports *)

Section cleaned_scene.
Import clean_ybot.















End cleaned_scene.

(** ** The merge script and the objects of the base model *)

Section merge_script.
Import merge_animations.



(** *** The job never deletes an object of the base model *)












End merge_script.
